(** * Financials parser: the review wizard's correction state, the Step 2 and
    Step 3 views, the balance check and the sheet-type detectors.

    The development embeds the TypeScript front end shallowly:
    - a JavaScript [number] is an IEEE 754 binary64 value, i.e. a primitive
      [float]; [number | null] is [option number];
    - a [Record<string, T>] is a plain object; a [gmap string T] holds its
      own properties. A bracket read or write of a plain object differs from
      a map's at the names [Object.prototype] defines: [JsObject] has both.
      Where a definition reads a dictionary with the map's lookup, the key is
      taken to be a name that [Object.prototype] does not define; a missing
      key then reads [undefined], modelled by [None];
    - a JavaScript [Set] of strings is a [gset string];
    - arrays are lists, updated by index with stdpp's list insert;
    - React's [setState (s => ...)] updaters are pure functions on
      [WizardState]. *)

From Stdlib Require Import Floats.PrimFloat Floats.SpecFloat Floats.FloatOps.
From Stdlib Require Import ZArith Ascii String List.
From stdpp Require Import gmap strings list fin_maps.

Local Open Scope string_scope.

(** ** Data model (frontend/src/types/index.ts) *)

(** The JavaScript type [number]. *)
Abbreviation number := float (only parsing).

Inductive Tag : Set := one_off_error | company_specific | general_fix.

Record Correction : Set := mkCorrection {
  fieldName : string;
  originalValue : number;
  correctedValue : number;
  reasoning : option string;
  tag : Tag;
  timestamp : string
}.

(** [Omit<Correction, 'timestamp'>], what the side panel hands to
    [onSaveCorrection]. *)
Module CorrectionData.
Record t : Set := make {
  fieldName : string;
  originalValue : number;
  correctedValue : number;
  reasoning : option string;
  tag : Tag
}.
End CorrectionData.

(** [{ ...correctionData, timestamp }] *)
Definition stamp (correctionData : CorrectionData.t) (timestamp : string) : Correction := {|
  fieldName := CorrectionData.fieldName correctionData;
  originalValue := CorrectionData.originalValue correctionData;
  correctedValue := CorrectionData.correctedValue correctionData;
  reasoning := CorrectionData.reasoning correctionData;
  tag := CorrectionData.tag correctionData;
  timestamp := timestamp
|}.

Inductive CheckStatus : Set := PASS | FAIL.

Record ValidationCheck : Set := mkValidationCheck {
  checkName : string;
  status : CheckStatus;
  details : string
}.

Record Layer1Result : Type := mkLayer1Result {
  lineItems : gmap string number;
  sourceScaling : string;
  columnIdentified : string
}.

Module L2.
Record Layer2Result : Type := mkLayer2Result {
  statementType : string;
  values : gmap string (option number);
  reasoning : gmap string string;
  validation : gmap string ValidationCheck;
  flaggedFields : list string;
  fieldValidations : gmap string (list string)
}.
End L2.
Export L2(Layer2Result).

Record TemplateSection : Set := mkTemplateSection {
  header : option string;
  fields : list string
}.

Record TemplateStatement : Set := mkTemplateStatement {
  sections : list TemplateSection;
  allFields : list string
}.

Record TemplateResponse : Set := mkTemplateResponse {
  income_statement : TemplateStatement;
  balance_sheet : TemplateStatement
}.

(** The browser's [File] object is opaque to the wizard; only its presence
    is observed. *)
Inductive File : Set := mkFile (fileName : string).

Inductive Step : Set := Step1 | Step2 | Step3.

Record WizardState : Type := mkWizardState {
  companyName : string;
  companyId : option Z;
  reportingPeriod : string;
  sessionId : option string;
  uploadedFile : option File;
  sheetNames : list string;
  workbookUrl : option string;
  layer1Results : gmap string Layer1Result;
  step1Approved : bool;
  layer2Results : gmap string Layer2Result;
  corrections : list Correction;
  step2Approved : bool;
  currentStep : Step;
  activeSheetTab : string;
  selectedCell : option string;
  sidePanelOpen : bool
}.

(** ** The wizard store (frontend/src/hooks/useWizardState.ts) *)

Definition defaultState : WizardState := {|
  companyName := "";
  companyId := None;
  reportingPeriod := "";
  sessionId := None;
  uploadedFile := None;
  sheetNames := [];
  workbookUrl := None;
  layer1Results := ∅;
  step1Approved := false;
  layer2Results := ∅;
  corrections := [];
  step2Approved := false;
  currentStep := Step1;
  activeSheetTab := "";
  selectedCell := None;
  sidePanelOpen := false
|}.

(** [{ ...s, corrections: cs }] *)
Definition set_corrections (s : WizardState) (cs : list Correction) : WizardState := {|
  companyName := companyName s;
  companyId := companyId s;
  reportingPeriod := reportingPeriod s;
  sessionId := sessionId s;
  uploadedFile := uploadedFile s;
  sheetNames := sheetNames s;
  workbookUrl := workbookUrl s;
  layer1Results := layer1Results s;
  step1Approved := step1Approved s;
  layer2Results := layer2Results s;
  corrections := cs;
  step2Approved := step2Approved s;
  currentStep := currentStep s;
  activeSheetTab := activeSheetTab s;
  selectedCell := selectedCell s;
  sidePanelOpen := sidePanelOpen s
|}.

(** [Array.prototype.findIndex]: the first index whose element satisfies
    the predicate, [-1] when there is none. *)
Fixpoint findIndex {A : Type} (p : A -> bool) (l : list A) : Z :=
  match l with
  | [] => (-1)%Z
  | x :: r =>
      if p x then 0%Z
      else let i := findIndex p r in
           if (0 <=? i)%Z then (i + 1)%Z else (-1)%Z
  end.

Definition sameField (name : string) (c : Correction) : bool :=
  String.eqb (fieldName c) name.

Definition addCorrection (s : WizardState) (correction : Correction) : WizardState :=
  let existing := findIndex (sameField (fieldName correction)) (corrections s) in
  if (0 <=? existing)%Z then
    let updated := <[Z.to_nat existing := correction]> (corrections s) in
    set_corrections s updated
  else
    set_corrections s (corrections s ++ [correction])%list.

Definition removeCorrection (s : WizardState) (name : string) : WizardState :=
  set_corrections s
    (List.filter (fun c => negb (String.eqb (fieldName c) name)) (corrections s)).

(** The remaining updaters of [WizardProvider]. Each is the function passed
    to [setState]; a field not named in the object literal keeps its value. *)

Definition setCompanyName (s : WizardState) (name : string) : WizardState :=
  mkWizardState name (companyId s) (reportingPeriod s) (sessionId s)
    (uploadedFile s) (sheetNames s) (workbookUrl s) (layer1Results s)
    (step1Approved s) (layer2Results s) (corrections s) (step2Approved s)
    (currentStep s) (activeSheetTab s) (selectedCell s) (sidePanelOpen s).

Definition setCompanyId (s : WizardState) (id : option Z) : WizardState :=
  mkWizardState (companyName s) id (reportingPeriod s) (sessionId s)
    (uploadedFile s) (sheetNames s) (workbookUrl s) (layer1Results s)
    (step1Approved s) (layer2Results s) (corrections s) (step2Approved s)
    (currentStep s) (activeSheetTab s) (selectedCell s) (sidePanelOpen s).

Definition setReportingPeriod (s : WizardState) (period : string) : WizardState :=
  mkWizardState (companyName s) (companyId s) period (sessionId s)
    (uploadedFile s) (sheetNames s) (workbookUrl s) (layer1Results s)
    (step1Approved s) (layer2Results s) (corrections s) (step2Approved s)
    (currentStep s) (activeSheetTab s) (selectedCell s) (sidePanelOpen s).

Definition setSessionId (s : WizardState) (id : option string) : WizardState :=
  mkWizardState (companyName s) (companyId s) (reportingPeriod s) id
    (uploadedFile s) (sheetNames s) (workbookUrl s) (layer1Results s)
    (step1Approved s) (layer2Results s) (corrections s) (step2Approved s)
    (currentStep s) (activeSheetTab s) (selectedCell s) (sidePanelOpen s).

Definition setUploadedFile (s : WizardState) (file : option File) : WizardState :=
  mkWizardState (companyName s) (companyId s) (reportingPeriod s) (sessionId s)
    file (sheetNames s) (workbookUrl s) (layer1Results s)
    (step1Approved s) (layer2Results s) (corrections s) (step2Approved s)
    (currentStep s) (activeSheetTab s) (selectedCell s) (sidePanelOpen s).

(** [names[0] ?? ''] *)
Definition setSheetNames (s : WizardState) (names : list string) : WizardState :=
  mkWizardState (companyName s) (companyId s) (reportingPeriod s) (sessionId s)
    (uploadedFile s) names (workbookUrl s) (layer1Results s)
    (step1Approved s) (layer2Results s) (corrections s) (step2Approved s)
    (currentStep s) (match names with n :: _ => n | [] => "" end)
    (selectedCell s) (sidePanelOpen s).

Definition setWorkbookUrl (s : WizardState) (url : option string) : WizardState :=
  mkWizardState (companyName s) (companyId s) (reportingPeriod s) (sessionId s)
    (uploadedFile s) (sheetNames s) url (layer1Results s)
    (step1Approved s) (layer2Results s) (corrections s) (step2Approved s)
    (currentStep s) (activeSheetTab s) (selectedCell s) (sidePanelOpen s).

Definition setLayer1Results (s : WizardState) (results : gmap string Layer1Result)
  : WizardState :=
  mkWizardState (companyName s) (companyId s) (reportingPeriod s) (sessionId s)
    (uploadedFile s) (sheetNames s) (workbookUrl s) results
    (step1Approved s) (layer2Results s) (corrections s) (step2Approved s)
    (currentStep s) (activeSheetTab s) (selectedCell s) (sidePanelOpen s).

Definition approveStep1 (s : WizardState) : WizardState :=
  mkWizardState (companyName s) (companyId s) (reportingPeriod s) (sessionId s)
    (uploadedFile s) (sheetNames s) (workbookUrl s) (layer1Results s)
    true (layer2Results s) (corrections s) (step2Approved s)
    Step2 (activeSheetTab s) (selectedCell s) (sidePanelOpen s).

Definition setLayer2Results (s : WizardState) (results : gmap string Layer2Result)
  : WizardState :=
  mkWizardState (companyName s) (companyId s) (reportingPeriod s) (sessionId s)
    (uploadedFile s) (sheetNames s) (workbookUrl s) (layer1Results s)
    (step1Approved s) results (corrections s) (step2Approved s)
    (currentStep s) (activeSheetTab s) (selectedCell s) (sidePanelOpen s).

Definition approveStep2 (s : WizardState) : WizardState :=
  mkWizardState (companyName s) (companyId s) (reportingPeriod s) (sessionId s)
    (uploadedFile s) (sheetNames s) (workbookUrl s) (layer1Results s)
    (step1Approved s) (layer2Results s) (corrections s) true
    Step3 (activeSheetTab s) None false.

Definition backToStep1 (s : WizardState) : WizardState :=
  mkWizardState (companyName s) (companyId s) (reportingPeriod s) (sessionId s)
    (uploadedFile s) (sheetNames s) (workbookUrl s) (layer1Results s)
    false ∅ [] false
    Step1 (activeSheetTab s) None false.

Definition backToStep2 (s : WizardState) : WizardState :=
  mkWizardState (companyName s) (companyId s) (reportingPeriod s) (sessionId s)
    (uploadedFile s) (sheetNames s) (workbookUrl s) (layer1Results s)
    (step1Approved s) (layer2Results s) (corrections s) false
    Step2 (activeSheetTab s) (selectedCell s) (sidePanelOpen s).

Definition setActiveSheetTab (s : WizardState) (tab : string) : WizardState :=
  mkWizardState (companyName s) (companyId s) (reportingPeriod s) (sessionId s)
    (uploadedFile s) (sheetNames s) (workbookUrl s) (layer1Results s)
    (step1Approved s) (layer2Results s) (corrections s) (step2Approved s)
    (currentStep s) tab (selectedCell s) (sidePanelOpen s).

(** [sidePanelOpen: cell !== null] *)
Definition setSelectedCell (s : WizardState) (cell : option string) : WizardState :=
  mkWizardState (companyName s) (companyId s) (reportingPeriod s) (sessionId s)
    (uploadedFile s) (sheetNames s) (workbookUrl s) (layer1Results s)
    (step1Approved s) (layer2Results s) (corrections s) (step2Approved s)
    (currentStep s) (activeSheetTab s) cell
    (match cell with Some _ => true | None => false end).

Definition setSidePanelOpen (s : WizardState) (open : bool) : WizardState :=
  mkWizardState (companyName s) (companyId s) (reportingPeriod s) (sessionId s)
    (uploadedFile s) (sheetNames s) (workbookUrl s) (layer1Results s)
    (step1Approved s) (layer2Results s) (corrections s) (step2Approved s)
    (currentStep s) (activeSheetTab s)
    (if open then selectedCell s else None) open.

Definition resetWizard (_ : WizardState) : WizardState := defaultState.

(** The two mock classification results live in [mocks/mockData], which is
    data, not logic; [loadMockStep2] takes them as parameters. *)
Definition loadMockStep2
  (MOCK_LAYER2_INCOME_STATEMENT MOCK_LAYER2_BALANCE_SHEET : Layer2Result)
  (_ : WizardState) : WizardState := {|
  companyName := "Acme Portfolio Co.";
  companyId := None;
  reportingPeriod := "March 2024";
  sessionId := Some "mock-session-001";
  uploadedFile := None;
  sheetNames := ["Income Statement"; "Balance Sheet"];
  workbookUrl := None;
  layer1Results := ∅;
  step1Approved := true;
  layer2Results :=
    <["balance_sheet" := MOCK_LAYER2_BALANCE_SHEET]>
      (<["income_statement" := MOCK_LAYER2_INCOME_STATEMENT]> ∅);
  corrections := [];
  step2Approved := false;
  currentStep := Step2;
  activeSheetTab := "Income Statement";
  selectedCell := None;
  sidePanelOpen := false
|}.

(** Every operation [WizardContextType] exposes, as one action type, and the
    store as a transition system over it. *)
Inductive Action : Type :=
| ASetCompanyName (name : string)
| ASetCompanyId (id : option Z)
| ASetReportingPeriod (period : string)
| ASetSessionId (id : option string)
| ASetUploadedFile (file : option File)
| ASetSheetNames (names : list string)
| ASetWorkbookUrl (url : option string)
| ASetLayer1Results (results : gmap string Layer1Result)
| AApproveStep1
| ASetLayer2Results (results : gmap string Layer2Result)
| AAddCorrection (correction : Correction)
| ARemoveCorrection (name : string)
| AApproveStep2
| ABackToStep1
| ABackToStep2
| ASetActiveSheetTab (tab : string)
| ASetSelectedCell (cell : option string)
| ASetSidePanelOpen (open : bool)
| AResetWizard
| ALoadMockStep2 (mockIS mockBS : Layer2Result).

Definition step (s : WizardState) (a : Action) : WizardState :=
  match a with
  | ASetCompanyName name => setCompanyName s name
  | ASetCompanyId id => setCompanyId s id
  | ASetReportingPeriod period => setReportingPeriod s period
  | ASetSessionId id => setSessionId s id
  | ASetUploadedFile file => setUploadedFile s file
  | ASetSheetNames names => setSheetNames s names
  | ASetWorkbookUrl url => setWorkbookUrl s url
  | ASetLayer1Results results => setLayer1Results s results
  | AApproveStep1 => approveStep1 s
  | ASetLayer2Results results => setLayer2Results s results
  | AAddCorrection correction => addCorrection s correction
  | ARemoveCorrection name => removeCorrection s name
  | AApproveStep2 => approveStep2 s
  | ABackToStep1 => backToStep1 s
  | ABackToStep2 => backToStep2 s
  | ASetActiveSheetTab tab => setActiveSheetTab s tab
  | ASetSelectedCell cell => setSelectedCell s cell
  | ASetSidePanelOpen open => setSidePanelOpen s open
  | AResetWizard => resetWizard s
  | ALoadMockStep2 mockIS mockBS => loadMockStep2 mockIS mockBS s
  end.

(** The state after the updaters of [trace] ran in order, React applying
    each to the state the previous one returned. *)
Definition run (trace : list Action) (s : WizardState) : WizardState :=
  fold_left step trace s.

(** A trace made of [addCorrection] and [removeCorrection] calls only. *)
Definition isCorrectionAction (a : Action) : bool :=
  match a with
  | AAddCorrection _ | ARemoveCorrection _ => true
  | _ => false
  end.

(** ** JavaScript string primitives

    A JavaScript string is a sequence of UTF-16 code units; the model covers
    the code units below 256 (the Latin-1 range), one [ascii] each. *)
Module JsString.

Definition code (c : ascii) : N := N_of_ascii c.

(** [String.prototype.toLowerCase] on Latin-1: A-Z and the accented
    capitals U+00C0-U+00DE (U+00D7, the multiplication sign, excepted)
    move up by 32. *)
Definition lowerChar (c : ascii) : ascii :=
  let n := code c in
  if ((65 <=? n) && (n <=? 90))%N then ascii_of_N (n + 32)
  else if ((192 <=? n) && (n <=? 222) && negb (n =? 215))%N then ascii_of_N (n + 32)
  else c.

Fixpoint toLowerCase (s : string) : string :=
  match s with
  | EmptyString => EmptyString
  | String c r => String (lowerChar c) (toLowerCase r)
  end.

Fixpoint startsWith (s p : string) {struct p} : bool :=
  match p, s with
  | EmptyString, _ => true
  | String _ _, EmptyString => false
  | String a p', String b s' => Ascii.eqb a b && startsWith s' p'
  end.

(** [String.prototype.includes] *)
Fixpoint includes (s p : string) : bool :=
  startsWith s p ||
  match s with
  | EmptyString => false
  | String _ r => includes r p
  end.

(** [String.prototype.endsWith] *)
Fixpoint endsWith (s suffix : string) : bool :=
  String.eqb s suffix ||
  match s with
  | EmptyString => false
  | String _ r => endsWith r suffix
  end.

(** ECMAScript WhiteSpace and LineTerminator code units below 256: TAB, LF,
    VT, FF, CR, SPACE and NO-BREAK SPACE. *)
Definition isWhiteSpace (c : ascii) : bool :=
  let n := code c in
  (((9 <=? n) && (n <=? 13)) || (n =? 32) || (n =? 160))%N.

Fixpoint trimStart (s : string) : string :=
  match s with
  | EmptyString => EmptyString
  | String c r => if isWhiteSpace c then trimStart r else s
  end.

Fixpoint rev_onto (s acc : string) : string :=
  match s with
  | EmptyString => acc
  | String c r => rev_onto r (String c acc)
  end.

Definition reverse (s : string) : string := rev_onto s EmptyString.

Definition trimEnd (s : string) : string := reverse (trimStart (reverse s)).

(** [String.prototype.trim] *)
Definition trim (s : string) : string := trimEnd (trimStart s).

(** JavaScript truthiness of a string: every string but the empty one. *)
Definition truthy (s : string) : bool :=
  match s with EmptyString => false | String _ _ => true end.

End JsString.

(** ** JavaScript number primitives *)
Module JsNumber.
Import JsString.
Local Open Scope Z_scope.

Definition NaN : number := PrimFloat.nan.

(** The global [isNaN] on a value that is already a number. *)
Definition isNaN (x : number) : bool := PrimFloat.is_nan x.

(** [x === y] on numbers: IEEE equality ([NaN] differs from itself, the two
    zeros are equal). *)
Definition strictEq (x y : number) : bool := PrimFloat.eqb x y.

Definition digitValue (c : ascii) : option Z :=
  let n := Z.of_N (code c) in
  if (48 <=? n) && (n <=? 57) then Some (n - 48) else None.

(** The longest run of decimal digits at the head of [s]: its value added
    to [acc] as further digits, how many digits were read, and the rest. *)
Fixpoint readDigits (s : string) (acc : Z) (count : nat) : Z * nat * string :=
  match s with
  | EmptyString => (acc, count, s)
  | String c r =>
      match digitValue c with
      | Some d => readDigits r (10 * acc + d) (S count)
      | None => (acc, count, s)
      end
  end.

(** The Number value of [m * 10^e10] for a positive integer [m]: the
    nearest binary64 value, ties to even. Decimal exponents beyond the
    binary64 range are settled without computing the power ([digits] bounds
    the number of decimal digits of [m] from above). *)
Definition roundDecimal (m : positive) (e10 : Z) : number :=
  let digits := Z.log2 (Z.pos m) / 3 + 1 in
  if 310 <? e10 then PrimFloat.infinity
  else if e10 + digits <? -330 then PrimFloat.zero
  else if 0 <=? e10 then
    FloatOps.SF2Prim
      (SpecFloat.binary_normalize FloatOps.prec FloatOps.emax
         (Z.pos m * 10 ^ e10) 0 false)
  else
    let d := 10 ^ (- e10) in
    let s := Z.max 0 (64 + Z.log2 d - Z.log2 (Z.pos m)) in
    let q := Z.shiftl (Z.pos m) s / d in
    let sticky := if Z.shiftl (Z.pos m) s mod d =? 0 then 0 else 1 in
    FloatOps.SF2Prim
      (SpecFloat.binary_normalize FloatOps.prec FloatOps.emax
         (2 * q + sticky) (- s - 1) false).

Definition ofDecimal (negative : bool) (m e10 : Z) : number :=
  let magnitude :=
    match m with
    | Z.pos p => roundDecimal p e10
    | _ => PrimFloat.zero
    end in
  if negative then PrimFloat.opp magnitude else magnitude.

(** An [ExponentPart] at the head of [s], when there is one: [e] or [E], an
    optional sign and at least one digit. *)
Definition readExponent (s : string) : Z :=
  match s with
  | String c r =>
      if Ascii.eqb c "e" || Ascii.eqb c "E" then
        let '(neg, r') :=
          match r with
          | String sg r' =>
              if Ascii.eqb sg "-" then (true, r')
              else if Ascii.eqb sg "+" then (false, r')
              else (false, r)
          | EmptyString => (false, r)
          end in
        let '(v, n, _) := readDigits r' 0 0%nat in
        match n with
        | O => 0
        | S _ => if neg then - v else v
        end
      else 0
  | EmptyString => 0
  end.

(** The global [parseFloat]: leading white space is skipped, the longest
    prefix that is a [StrDecimalLiteral] is converted, and [NaN] is returned
    when no prefix is one. *)
Definition parseFloat (input : string) : number :=
  let trimmed := trimStart input in
  let '(negative, body) :=
    match trimmed with
    | String sg r =>
        if Ascii.eqb sg "-" then (true, r)
        else if Ascii.eqb sg "+" then (false, r)
        else (false, trimmed)
    | EmptyString => (false, trimmed)
    end in
  if startsWith body "Infinity" then
    if negative then PrimFloat.neg_infinity else PrimFloat.infinity
  else
    let '(intValue, intCount, afterInt) := readDigits body 0 0%nat in
    let '(mantissa, fracCount, afterFrac) :=
      match afterInt with
      | String dot r =>
          if Ascii.eqb dot "." then
            let '(v, n, rest) := readDigits r intValue 0%nat in
            match intCount, n with
            | O, O => (intValue, 0%nat, afterInt)
            | _, _ => (v, n, rest)
            end
          else (intValue, 0%nat, afterInt)
      | EmptyString => (intValue, 0%nat, afterInt)
      end in
    match (intCount + fracCount)%nat with
    | O => NaN
    | S _ => ofDecimal negative mantissa (readExponent afterFrac - Z.of_nat fracCount)
    end.

End JsNumber.

(** ** Plain objects used as dictionaries

    The dictionaries of the code are plain objects, made by an object
    literal or by [JSON.parse]; their prototype is [Object.prototype]. *)
Module JsObject.

(** The property names [Object.prototype] defines (ECMAScript 2015 and
    later, Annex B included). *)
Definition prototypeMembers : list string :=
  ["constructor"; "hasOwnProperty"; "isPrototypeOf"; "propertyIsEnumerable";
   "toLocaleString"; "toString"; "valueOf";
   "__defineGetter__"; "__defineSetter__"; "__lookupGetter__";
   "__lookupSetter__"; "__proto__"].

Definition inherited (key : string) : bool :=
  existsb (String.eqb key) prototypeMembers.

(** What the bracket read [obj[key]] gives: the own property when there is
    one, else the member of [Object.prototype] of that name when there is
    one (a function, or the prototype itself under [__proto__]), else
    [undefined]. *)
Inductive Read (A : Type) : Type :=
| Own (v : A)
| Inherited
| Undefined.

Arguments Own {A} v.
Arguments Inherited {A}.
Arguments Undefined {A}.

Definition get {A : Type} (obj : gmap string A) (key : string) : Read A :=
  match obj !! key with
  | Some v => Own v
  | None => if inherited key then Inherited else Undefined
  end.

(** [read ?? fallback], where the own values are neither [null] nor
    [undefined]. *)
Definition orElse {A : Type} (read : Read A) (fallback : A) : Read A :=
  match read with
  | Undefined => Own fallback
  | _ => read
  end.

(** Whether the bracket write [obj[key] = v] reaches the setter that
    [Object.prototype] defines under [__proto__]: it does under that name
    when the object has no own property called so (an own one is made by
    [JSON.parse] or copied by a spread). *)
Definition reachesSetter {A : Type} (obj : gmap string A) (key : string) : bool :=
  String.eqb key "__proto__" &&
  match obj !! key with Some _ => false | None => true end.

(** The own properties after the bracket write [obj[key] = v]. The write
    defines or overwrites the own property, unless it reaches the setter,
    which sets no own property: it ignores a primitive, and an object it
    installs as the prototype. *)
Definition set {A : Type} (obj : gmap string A) (key : string) (v : A)
  : gmap string A :=
  if reachesSetter obj key then obj else <[key := v]> obj.

End JsObject.

(** ** Number formatting (frontend/src/utils/formatters.ts)

    [Number.prototype.toLocaleString('en-US', {minimumFractionDigits: 2,
    maximumFractionDigits: 2})] and [Number.prototype.toFixed(2)] belong to
    the JavaScript runtime; the formatters take them as parameters. The text
    they produce is display text and is never inspected by the code. *)
Record Intl : Set := mkIntl {
  toLocaleString2 : number -> string;
  toFixed2 : number -> string
}.

Module Formatters.
Import JsString.

Definition formatDollar (intl : Intl) (value : number) : string :=
  if JsNumber.strictEq value 0%float then "$0.00"
  else
    let abs := PrimFloat.abs value in
    let formatted := toLocaleString2 intl abs in
    if PrimFloat.ltb value 0%float then "($" ++ formatted ++ ")" else "$" ++ formatted.

Definition formatPercent (intl : Intl) (value : number) : string :=
  if JsNumber.strictEq value 0%float then "0.00%"
  else toFixed2 intl value ++ "%".

Definition formatValue (intl : Intl) (fieldName : string) (value : number) : string :=
  if endsWith fieldName "%" || includes (toLowerCase fieldName) "margin"
  then formatPercent intl value
  else formatDollar intl value.

(** The dash shown for a missing value is U+2014, carried as its UTF-8
    bytes. *)
Definition formatFieldValue (intl : Intl) (fieldName : string)
  (value : option number) : string :=
  match value with
  | None => "—"
  | Some v => formatValue intl fieldName v
  end.

End Formatters.

(** JavaScript truthiness of the optional values the views test. *)
Definition truthyFlag (b : option bool) : bool :=
  match b with Some true => true | _ => false end.

Definition truthyText (s : option string) : bool :=
  match s with Some t => JsString.truthy t | None => false end.

(** ** The shared table (frontend/src/components/shared/DataTable.tsx) *)
Module DataTable.

(** An optional property that the object literal leaves out reads
    [undefined], modelled by [None]. *)
Record DataTableRow : Set := mkRow {
  label : string;
  value : option string;
  isHeader : option bool;
  isStatementHeader : option bool;
  isFlagged : option bool;
  hasValidationFail : option bool;
  isClickable : option bool;
  isEdited : option bool
}.

(** Which of the three [<tr>] shapes [rows.map] returns for a row. *)
Inductive RowShape : Set := StatementHeaderRow | HeaderRow | FieldRow.

Definition rowShape (row : DataTableRow) : RowShape :=
  if truthyFlag (isStatementHeader row) then StatementHeaderRow
  else if truthyFlag (isHeader row) then HeaderRow
  else FieldRow.

(** [{row.isFlagged && <span ...>flagged</span>}] *)
Definition showsFlaggedBadge (row : DataTableRow) : bool :=
  match rowShape row with
  | FieldRow => truthyFlag (isFlagged row)
  | _ => false
  end.

(** [{row.isEdited && <span ...>edited</span>}] *)
Definition showsEditedBadge (row : DataTableRow) : bool :=
  match rowShape row with
  | FieldRow => truthyFlag (isEdited row)
  | _ => false
  end.

(** [onClick={() => row.isClickable && onCellClick && onCellClick(row.label)}]:
    the label a click on the row passes to [onCellClick], when it passes one.
    The two header shapes carry no click handler. *)
Definition clickTarget (row : DataTableRow) : option string :=
  match rowShape row with
  | FieldRow => if truthyFlag (isClickable row) then Some (label row) else None
  | _ => None
  end.

End DataTable.

Module SheetType.
Inductive t : Set := income_statement | balance_sheet.
End SheetType.

(** ** The side panel (frontend/src/components/shared/SidePanel.tsx) *)
Module SidePanel.
Import JsString.

(** The correction form's [useState] cells. *)
Record FormState : Set := mkForm {
  correctedValue : string;
  correctionReasoning : string;
  tag : Tag;
  reasoningError : bool
}.

Definition setReasoningError (st : FormState) (b : bool) : FormState :=
  mkForm (correctedValue st) (correctionReasoning st) (tag st) b.

(** [fieldName && layer2Result ? (layer2Result.values[fieldName] ?? null) : null] *)
Definition currentValue (fieldName : option string)
  (layer2Result : option Layer2Result) : option number :=
  match fieldName, layer2Result with
  | Some f, Some l =>
      if truthy f then
        match L2.values l !! f with
        | Some v => v
        | None => None
        end
      else None
  | _, _ => None
  end.

(** [handleSave]: the form state it leaves and the argument of the
    [onSaveCorrection] call, when it makes one. *)
Definition handleSave (fieldName : option string)
  (layer2Result : option Layer2Result) (st : FormState)
  : FormState * option CorrectionData.t :=
  match fieldName with
  | None => (st, None)
  | Some f =>
      if negb (truthy f) then (st, None)
      else
        let parsed := JsNumber.parseFloat (correctedValue st) in
        if JsNumber.isNaN parsed then (st, None)
        else if negb (truthy (trim (correctionReasoning st))) then
          (setReasoningError st true, None)
        else
          (setReasoningError st false,
           Some (CorrectionData.make f
                   (default 0%float (currentValue fieldName layer2Result))
                   parsed
                   (Some (correctionReasoning st))
                   (tag st)))
  end.

(** [fieldName && layer2Result?.fieldValidations
      ? (layer2Result.fieldValidations[fieldName] ?? []) : []]: the names
    stored under the field, no name when nothing is stored under it, and
    the inherited member when the field is called like a member of
    [Object.prototype] and nothing is stored under it. *)
Definition relevantCheckNames (fieldName : option string)
  (layer2Result : option Layer2Result) : JsObject.Read (list string) :=
  match fieldName, layer2Result with
  | Some f, Some l =>
      if truthy f
      then JsObject.orElse (JsObject.get (L2.fieldValidations l) f) []
      else JsObject.Own []
  | _, _ => JsObject.Own []
  end.

(** [layer2Result?.validation[name]] *)
Definition checkNamed (layer2Result : option Layer2Result) (name : string)
  : JsObject.Read ValidationCheck :=
  match layer2Result with
  | Some l => JsObject.get (L2.validation l) name
  | None => JsObject.Undefined
  end.

(** [relevantCheckNames.map(...).filter((pair) => pair[1] !== undefined)]:
    the names paired with what is read under them, the pairs that read
    [undefined] dropped. An inherited member has no [map]: the call throws a
    [TypeError], modelled by [None]. *)
Definition relevantChecks (fieldName : option string)
  (layer2Result : option Layer2Result)
  : option (list (string * JsObject.Read ValidationCheck)) :=
  match relevantCheckNames fieldName layer2Result with
  | JsObject.Own names =>
      Some
        (List.filter
           (fun pair : string * JsObject.Read ValidationCheck =>
              match snd pair with
              | JsObject.Undefined => false
              | _ => true
              end)
           (map (fun name => (name, checkNamed layer2Result name)) names))
  | _ => None
  end.

(** [check.status === 'FAIL']; an inherited member has no [status]. *)
Definition isFail (check : JsObject.Read ValidationCheck) : bool :=
  match check with
  | JsObject.Own c => match status c with FAIL => true | PASS => false end
  | _ => false
  end.

Definition hasFailure (fieldName : option string)
  (layer2Result : option Layer2Result) : option bool :=
  match relevantChecks fieldName layer2Result with
  | Some checks => Some (existsb (fun pair => isFail (snd pair)) checks)
  | None => None
  end.

Definition failCount (fieldName : option string)
  (layer2Result : option Layer2Result) : option nat :=
  match relevantChecks fieldName layer2Result with
  | Some checks => Some (length (List.filter (fun pair => isFail (snd pair)) checks))
  | None => None
  end.

End SidePanel.


(** ** Step 1 (frontend/src/components/wizard/Step1Upload.tsx)

    The tab states and the extraction results are dictionaries keyed by
    sheet name. Their bracket reads are the map's lookup, which is what the
    source reads for a sheet that is not called like a member of
    [Object.prototype]. *)
Module Step1Upload.
Import JsString.

Definition detectSheetType (name : string) : SheetType.t :=
  let lower := toLowerCase name in
  if includes lower "income" ||
     includes lower "p&l" ||
     includes lower "profit" ||
     includes lower "pnl" ||
     includes lower "revenue"
  then SheetType.income_statement
  else SheetType.income_statement.

Module TabStatus.
Inductive t : Set := idle | extracting | done | error.
End TabStatus.

(** [TabState]. An entry built by spreading a missing entry lacks every
    property the object literal does not name; a missing property is
    [None]. *)
Record TabState : Set := mkTabState {
  sheetType : option SheetType.t;
  status : option TabStatus.t;
  error : option string
}.

(** [{ ...prev[tabName] }] *)
Definition spread (entry : option TabState) : TabState :=
  default (mkTabState None None None) entry.

(** [tabStates[s]?.status === 'done'] *)
Definition isDone (entry : option TabState) : bool :=
  match entry with
  | Some t => match status t with Some TabStatus.done => true | _ => false end
  | None => false
  end.

(** [tabStates[s]?.sheetType === sheetType] *)
Definition hasType (sheetType' : SheetType.t) (entry : option TabState) : bool :=
  match entry with
  | Some t =>
      match sheetType t, sheetType' with
      | Some SheetType.income_statement, SheetType.income_statement
      | Some SheetType.balance_sheet, SheetType.balance_sheet => true
      | _, _ => false
      end
  | None => false
  end.

(** The tab states [handleFileChange] installs after a successful upload:
    one bracket write [initialTabStates[name] = { sheetType, status }] per
    sheet name, into an object that starts empty. *)
Definition initialTabStates (sheetNames : list string) : gmap string TabState :=
  fold_left
    (fun acc name =>
       JsObject.set acc name
         (mkTabState (Some (detectSheetType name)) (Some TabStatus.idle) None))
    sheetNames ∅.

Definition setTabSheetType (tabName : string) (sheetType' : SheetType.t)
  (prev : gmap string TabState) : gmap string TabState :=
  <[tabName := mkTabState (Some sheetType') (status (spread (prev !! tabName)))
                 (error (spread (prev !! tabName)))]> prev.

(** The statement types of the sheets already extracted. *)
Definition doneTypes (sheetNames : list string) (tabStates : gmap string TabState)
  : list (option SheetType.t) :=
  map (fun s => sheetType (spread (tabStates !! s)))
    (List.filter (fun s => isDone (tabStates !! s)) sheetNames).

Definition hasDoneType (types : list (option SheetType.t)) (t : SheetType.t) : bool :=
  existsb
    (fun x => match x, t with
              | Some SheetType.income_statement, SheetType.income_statement
              | Some SheetType.balance_sheet, SheetType.balance_sheet => true
              | _, _ => false
              end)
    types.

Definition otherType (t : SheetType.t) : SheetType.t :=
  match t with
  | SheetType.income_statement => SheetType.balance_sheet
  | SheetType.balance_sheet => SheetType.income_statement
  end.

Definition isOnly (types : list (option SheetType.t)) (t : SheetType.t) : bool :=
  hasDoneType types t && negb (hasDoneType types (otherType t)).

(** [handleTabChange], on the tab states (the scroll position it saves is a
    DOM matter, and the store only gets [setActiveSheetTab(tab)]). *)
Definition handleTabChange (sheetNames : list string) (tab : string)
  (tabStates : gmap string TabState) : gmap string TabState :=
  match tabStates !! tab with
  | Some destState =>
      if negb (isDone (Some destState)) then
        let types := doneTypes sheetNames tabStates in
        if isOnly types SheetType.income_statement then
          setTabSheetType tab SheetType.balance_sheet tabStates
        else if isOnly types SheetType.balance_sheet then
          setTabSheetType tab SheetType.income_statement tabStates
        else tabStates
      else tabStates
  | None => tabStates
  end.

Definition extractedIS (sheetNames : list string) (tabStates : gmap string TabState) : bool :=
  existsb
    (fun s => isDone (tabStates !! s) && hasType SheetType.income_statement (tabStates !! s))
    sheetNames.

Definition extractedBS (sheetNames : list string) (tabStates : gmap string TabState) : bool :=
  existsb
    (fun s => isDone (tabStates !! s) && hasType SheetType.balance_sheet (tabStates !! s))
    sheetNames.

Definition canApprove (sheetNames : list string) (tabStates : gmap string TabState) : bool :=
  extractedIS sheetNames tabStates && extractedBS sheetNames tabStates.

(** [handleRunExtraction] in its three state updates. It returns at once
    without a session or without a state for the tab. *)
Definition extractionRuns (s : WizardState) (tabStates : gmap string TabState)
  (tabName : string) : bool :=
  truthyText (sessionId s) &&
  match tabStates !! tabName with Some _ => true | None => false end.

Definition extractionStarted (tabName : string) (prev : gmap string TabState)
  : gmap string TabState :=
  <[tabName := mkTabState (sheetType (spread (prev !! tabName)))
                 (Some TabStatus.extracting) None]> prev.

(** The two updates after [runLayer1] resolved. [captured] is the
    [layer1Results] of the render in which the extraction was started: the
    handler closes over it and writes [{ ...layer1Results, [tabName]: result }]. *)
Definition extractionSucceeded (captured : gmap string Layer1Result)
  (tabName : string) (result : Layer1Result)
  (st : WizardState * gmap string TabState) : WizardState * gmap string TabState :=
  (setLayer1Results (fst st) (<[tabName := result]> captured),
   <[tabName := mkTabState (sheetType (spread (snd st !! tabName)))
                  (Some TabStatus.done) (error (spread (snd st !! tabName)))]> (snd st)).

Definition extractionFailed (tabName message : string) (prev : gmap string TabState)
  : gmap string TabState :=
  <[tabName := mkTabState (sheetType (spread (prev !! tabName)))
                 (Some TabStatus.error) (Some message)]> prev.

(** [Company] of types/index.ts. *)
Module Company.
Record t : Set := make {
  id : Z;
  name : string;
  markdown_filename : string
}.
End Company.

(** [companies.filter((c) => c.name.toLowerCase().includes(comboSearch.toLowerCase()))] *)
Definition filteredCompanies (companies : list Company.t) (comboSearch : string)
  : list Company.t :=
  List.filter
    (fun c => includes (toLowerCase (Company.name c)) (toLowerCase comboSearch))
    companies.

(** Whether the open dropdown offers the "+ Add" button:
    [comboSearch.trim() && !companies.some((c) =>
       c.name.toLowerCase() === comboSearch.trim().toLowerCase())]. *)
Definition offersAdd (companies : list Company.t) (comboSearch : string) : bool :=
  truthy (trim comboSearch) &&
  negb (existsb
          (fun c => String.eqb (toLowerCase (Company.name c))
                      (toLowerCase (trim comboSearch)))
          companies).

(** Whether it shows the "No companies yet" hint:
    [filteredCompanies.length === 0 && !comboSearch.trim()]. *)
Definition showsNoCompaniesHint (companies : list Company.t) (comboSearch : string)
  : bool :=
  (length (filteredCompanies companies comboSearch) =? 0)%nat &&
  negb (truthy (trim comboSearch)).

End Step1Upload.

(** ** Step 2 (frontend/src/components/wizard/Step2Classify.tsx) *)
Module Step2Classify.
Import JsString.

(** [/[_\- ]is$/i.test(name)]: the name ends in an underscore, a hyphen or a
    space followed by [is] in either case. Without the [u] flag the [i] flag
    folds only [I] onto [i] and [S] onto [s]. *)
Definition foldIS (c : ascii) : ascii :=
  if Ascii.eqb c "I" then "i"%char else if Ascii.eqb c "S" then "s"%char else c.

Fixpoint foldISs (s : string) : string :=
  match s with
  | EmptyString => EmptyString
  | String c r => String (foldIS c) (foldISs r)
  end.

Definition test_sep_is_end (name : string) : bool :=
  let f := foldISs name in
  endsWith f "_is" || endsWith f "-is" || endsWith f " is".

(** [/^is$/i.test(name)] *)
Definition test_exactly_is (name : string) : bool :=
  String.eqb (foldISs name) "is".

(** The condition of the [if] in [detectSheetType]. *)
Definition matchesIncomeStatement (name : string) : bool :=
  let lower := toLowerCase name in
  includes lower "income" ||
  includes lower "p&l" ||
  includes lower "p_l" ||
  includes lower "profit" ||
  includes lower "pnl" ||
  includes lower "revenue" ||
  includes lower "i/s" ||
  test_sep_is_end name ||
  test_exactly_is name.

Definition detectSheetType (name : string) : SheetType.t :=
  if matchesIncomeStatement name then SheetType.income_statement
  else SheetType.balance_sheet.

Import DataTable.

Definition statementHeaderRow (statementLabel : string) : DataTableRow :=
  mkRow statementLabel None None (Some true) None None None None.

Definition headerRow (h : string) : DataTableRow :=
  mkRow h None (Some true) None None None None None.

(** The row pushed for one template field. The bracket reads
    [layer2.values[field]], [layer2?.fieldValidations?.[field]] and
    [layer2?.validation[checkName]] are the map's lookups: the row is the one
    the source builds when [field] is not called like a member of
    [Object.prototype] (see [JsObject.inherited]). *)
Definition fieldRow (intl : Intl) (layer2 : option Layer2Result)
  (corrections : list Correction) (field : string) : DataTableRow :=
  let correction := List.find (sameField field) corrections in
  let rawValue : option number :=
    match correction with
    | Some c => Some (correctedValue c)
    | None =>
        match layer2 with
        | Some l => match L2.values l !! field with
                    | Some v => v
                    | None => None
                    end
        | None => None
        end
    end in
  let isFlagged :=
    match layer2 with
    | Some l => existsb (String.eqb field) (L2.flaggedFields l)
    | None => false
    end in
  let fieldChecks :=
    match layer2 with
    | Some l => default [] (L2.fieldValidations l !! field)
    | None => []
    end in
  let hasValidationFail :=
    existsb
      (fun checkName =>
         match layer2 with
         | Some l =>
             match L2.validation l !! checkName with
             | Some chk => match status chk with FAIL => true | PASS => false end
             | None => false
             end
         | None => false
         end)
      fieldChecks in
  {| label := field;
     value := match rawValue with
              | Some v => Some (Formatters.formatFieldValue intl field (Some v))
              | None => None
              end;
     isHeader := None;
     isStatementHeader := None;
     isFlagged := Some isFlagged;
     hasValidationFail := Some hasValidationFail;
     isClickable := Some true;
     isEdited := Some (match correction with Some _ => true | None => false end) |}.

(** [selectedCell] is accepted and not used, as in the source. *)
Definition buildTemplateRows (intl : Intl) (sections : list TemplateSection)
  (statementLabel : string) (layer2 : option Layer2Result)
  (corrections : list Correction) (selectedCell : option string)
  : list DataTableRow :=
  statementHeaderRow statementLabel ::
  flat_map
    (fun section =>
       ((match header section with
         | Some h => if JsString.truthy h then [headerRow h] else []
         | None => []
         end) ++
        map (fieldRow intl layer2 corrections) (fields section))%list)
    sections.

Inductive StatusType : Set := success | error | info.

Record StatusMessage : Set := mkStatus {
  type : StatusType;
  message : string
}.

Definition quote : string := String (ascii_of_N 34) EmptyString.

(** [isAllFields.includes(selectedCell) ? 'income_statement' : 'balance_sheet'] *)
Definition selectedCellType (isAllFields : list string) (selectedCell : option string)
  : option SheetType.t :=
  match selectedCell with
  | Some cell =>
      if JsString.truthy cell then
        Some (if existsb (String.eqb cell) isAllFields
              then SheetType.income_statement else SheetType.balance_sheet)
      else None
  | None => None
  end.

(** [corrections.find((c) => c.fieldName === selectedCell)] *)
Definition existingCorrection (corrections : list Correction)
  (selectedCell : option string) : option Correction :=
  match selectedCell with
  | Some cell =>
      if JsString.truthy cell then List.find (sameField cell) corrections else None
  | None => None
  end.

(** [handleSaveCorrection]: the correction is stamped with the current time
    and handed to [addCorrection]; the POST to [/corrections] that follows
    is awaited and its failure is swallowed ("Non-fatal"), so it has no
    effect on the wizard state; then the banner is set. [now] is
    [new Date().toISOString()]. *)
Definition handleSaveCorrection (now : string) (s : WizardState)
  (correctionData : CorrectionData.t) : WizardState * StatusMessage :=
  let correction := stamp correctionData now in
  (addCorrection s correction,
   mkStatus success
     ("Correction saved for " ++ quote ++ fieldName correction ++ quote ++ ".")).

Definition handleRemoveCorrection (s : WizardState) (name : string)
  : WizardState * StatusMessage :=
  (removeCorrection s name,
   mkStatus info ("Correction removed for " ++ quote ++ name ++ quote ++ ".")).

(** [template?.income_statement.allFields ?? IS_TEMPLATE_FIELDS] *)
Definition isAllFields (IS_TEMPLATE_FIELDS : list string)
  (template : option TemplateResponse) : list string :=
  match template with
  | Some t => allFields (income_statement t)
  | None => IS_TEMPLATE_FIELDS
  end.

Definition sheetKey (t : SheetType.t) : string :=
  match t with
  | SheetType.income_statement => "income_statement"
  | SheetType.balance_sheet => "balance_sheet"
  end.

Definition activeLayer2 (IS_TEMPLATE_FIELDS : list string)
  (template : option TemplateResponse) (s : WizardState) : option Layer2Result :=
  match selectedCellType (isAllFields IS_TEMPLATE_FIELDS template) (selectedCell s) with
  | Some t => layer2Results s !! sheetKey t
  | None => None
  end.

(** A click on the panel's Save button, as [Step2Classify] wires the panel:
    [fieldName={selectedCell}], [layer2Result={activeLayer2}] and
    [onSaveCorrection={handleSaveCorrection}]. *)
Definition clickSave (IS_TEMPLATE_FIELDS : list string)
  (template : option TemplateResponse) (now : string)
  (s : WizardState) (form : SidePanel.FormState)
  : WizardState * SidePanel.FormState :=
  match SidePanel.handleSave (selectedCell s)
          (activeLayer2 IS_TEMPLATE_FIELDS template s) form with
  | (form', Some correctionData) =>
      (fst (handleSaveCorrection now s correctionData), form')
  | (form', None) => (s, form')
  end.

(** [s !== isSheet], where [isSheet] may be [undefined]. *)
Definition differsFrom (isSheet : option string) (s : string) : bool :=
  match isSheet with
  | Some i => negb (String.eqb s i)
  | None => true
  end.

Definition isIncomeStatement (t : SheetType.t) : bool :=
  match t with SheetType.income_statement => true | SheetType.balance_sheet => false end.

(** [findIsBsSheets]: the pair [(isSheet, bsSheet)]. *)
Definition findIsBsSheets (sheetNames : list string) : option string * option string :=
  let isSheet := List.find (fun s => isIncomeStatement (detectSheetType s)) sheetNames in
  let bsSheet :=
    match List.find
            (fun s => differsFrom isSheet s && negb (isIncomeStatement (detectSheetType s)))
            sheetNames with
    | Some b => Some b
    | None => List.find (differsFrom isSheet) sheetNames
    end in
  (isSheet, bsSheet).

(** [CorrectionProcessItem] of types/index.ts. *)
Module CorrectionProcessItem.
Record t : Set := make {
  field_name : string;
  statement_type : string;
  layer2_value : option number;
  layer2_reasoning : option string;
  layer2_validation : option string;
  corrected_value : number;
  analyst_reasoning : option string;
  tag : Tag
}.
End CorrectionProcessItem.

(** [Array.prototype.join] *)
Fixpoint join (sep : string) (parts : list string) : string :=
  match parts with
  | [] => ""
  | [x] => x
  | x :: rest => x ++ sep ++ join sep rest
  end.

Definition statusText (st : CheckStatus) : string :=
  match st with PASS => "PASS" | FAIL => "FAIL" end.

(** One element of [processItems] in [handleApproveStep2]. The dash between
    status and details is U+2014, carried as its UTF-8 bytes. *)
Definition processItem (isAllFields' : list string)
  (layer2Results' : gmap string Layer2Result) (c : Correction)
  : CorrectionProcessItem.t :=
  let stmtType :=
    if existsb (String.eqb (fieldName c)) isAllFields'
    then "income_statement" else "balance_sheet" in
  let layer2 := layer2Results' !! stmtType in
  let valKeys :=
    match layer2 with
    | Some l => default [] (L2.fieldValidations l !! fieldName c)
    | None => []
    end in
  let validationStr :=
    match valKeys with
    | [] => None
    | _ :: _ =>
        Some (join "; "
                (map (fun k =>
                        match layer2 with
                        | Some l =>
                            match L2.validation l !! k with
                            | Some chk =>
                                k ++ ": " ++ statusText (status chk) ++ " — " ++ details chk
                            | None => k
                            end
                        | None => k
                        end)
                   valKeys))
    end in
  CorrectionProcessItem.make
    (fieldName c)
    stmtType
    (match layer2 with
     | Some l => match L2.values l !! fieldName c with Some v => v | None => None end
     | None => None
     end)
    (match layer2 with
     | Some l => L2.reasoning l !! fieldName c
     | None => None
     end)
    validationStr
    (correctedValue c)
    (reasoning c)
    (tag c).

(** [handleApproveStep2]: the items posted to [/corrections/process], when
    there is a correction to post, and the store after it. The request's
    failure is swallowed ("Non-fatal -- proceed regardless"), and
    [approveStep2] runs in every case. *)
Definition handleApproveStep2 (IS_TEMPLATE_FIELDS : list string)
  (template : option TemplateResponse) (s : WizardState)
  : option (list CorrectionProcessItem.t) * WizardState :=
  (match corrections s with
   | [] => None
   | _ :: _ =>
       Some (map (processItem (isAllFields IS_TEMPLATE_FIELDS template) (layer2Results s))
               (corrections s))
   end,
   approveStep2 s).

(** [layer2?.fieldValidations?.[field] ?? []] of [buildTemplateRows], as
    the bracket read of a plain object gives it: the names stored under the
    field, no name when nothing is stored under it, and the inherited member
    when the field is called like a member of [Object.prototype] and nothing
    is stored under it. *)
Definition fieldChecks (layer2 : option Layer2Result) (field : string)
  : JsObject.Read (list string) :=
  match layer2 with
  | Some l => JsObject.orElse (JsObject.get (L2.fieldValidations l) field) []
  | None => JsObject.Own []
  end.

(** [fieldChecks.some((checkName) =>
      layer2?.validation[checkName]?.status === 'FAIL')]. An inherited
    member has no [some]: the call throws a [TypeError], modelled by [None],
    and [buildTemplateRows] returns no rows. *)
Definition fieldChecksFail (layer2 : option Layer2Result) (field : string)
  : option bool :=
  match fieldChecks layer2 field with
  | JsObject.Own names =>
      Some
        (existsb
           (fun checkName =>
              match layer2 with
              | Some l =>
                  match JsObject.get (L2.validation l) checkName with
                  | JsObject.Own chk =>
                      match status chk with FAIL => true | PASS => false end
                  | _ => false
                  end
              | None => false
              end)
           names)
  | _ => None
  end.

(** [template?.income_statement.sections ?? fallbackIs] and
    [template?.balance_sheet.sections ?? fallbackBs]. *)
Definition isSections (IS_TEMPLATE_FIELDS : list string)
  (template : option TemplateResponse) : list TemplateSection :=
  match template with
  | Some t => sections (income_statement t)
  | None => [mkTemplateSection None IS_TEMPLATE_FIELDS]
  end.

Definition bsSections (BS_TEMPLATE_FIELDS : list string)
  (template : option TemplateResponse) : list TemplateSection :=
  match template with
  | Some t => sections (balance_sheet t)
  | None => [mkTemplateSection None BS_TEMPLATE_FIELDS]
  end.

(** [templateRows], the rows of the centre table:
    [[...isTemplateRows, ...bsTemplateRows]]. *)
Definition templateRows (intl : Intl)
  (IS_TEMPLATE_FIELDS BS_TEMPLATE_FIELDS : list string)
  (template : option TemplateResponse) (s : WizardState) : list DataTableRow :=
  (buildTemplateRows intl (isSections IS_TEMPLATE_FIELDS template) "Income Statement"
     (layer2Results s !! "income_statement") (corrections s) (selectedCell s) ++
   buildTemplateRows intl (bsSections BS_TEMPLATE_FIELDS template) "Balance Sheet"
     (layer2Results s !! "balance_sheet") (corrections s) (selectedCell s))%list.

End Step2Classify.

(** The object [buildFinalValues] returns, keyed by statement type. *)
Module FinalValues.
Record t : Type := make {
  income_statement : gmap string (option number);
  balance_sheet : gmap string (option number)
}.
End FinalValues.

(** ** Step 3 (frontend/src/components/wizard/Step3Finalize.tsx) *)
Module Step3Finalize.

Record TableRow : Set := mkTableRow {
  label : string;
  value : option string;
  rawValue : option (option number);
  isStatementHeader : option bool;
  isHeader : option bool;
  isBalanceCheck : option bool;
  corrected : option bool;
  flagged : option bool
}.

(** The tolerance literal [0.01], i.e. the binary64 value nearest to it. *)
Definition tolerance : number := 0x1.47ae147ae147bp-7%float.

Section Component.
(** What one render of the component reads: the fallback field lists of
    [mocks/mockData], the template fetched from the API ([null] until it
    arrives), and the wizard store's classification results and
    corrections. *)
Variable intl : Intl.
Variables IS_TEMPLATE_FIELDS BS_TEMPLATE_FIELDS : list string.
Variable template : option TemplateResponse.
Variable layer2Results : gmap string Layer2Result.
Variable corrections : list Correction.

Definition isLayer2 : option Layer2Result := layer2Results !! "income_statement".
Definition bsLayer2 : option Layer2Result := layer2Results !! "balance_sheet".

Definition fallbackIs : list TemplateSection := [mkTemplateSection None IS_TEMPLATE_FIELDS].
Definition fallbackBs : list TemplateSection := [mkTemplateSection None BS_TEMPLATE_FIELDS].

Definition isSections : list TemplateSection :=
  match template with
  | Some t => sections (income_statement t)
  | None => fallbackIs
  end.

Definition bsSections : list TemplateSection :=
  match template with
  | Some t => sections (balance_sheet t)
  | None => fallbackBs
  end.

(** [new Set(isSections.flatMap((s) => s.fields))] *)
Definition isFieldNames : gset string := list_to_set (flat_map fields isSections).

(** One turn of the [for (const correction of corrections)] loop: the
    bracket write [isValues[correction.fieldName] = correction.correctedValue],
    or the same on [bsValues]. *)
Definition applyCorrection (acc : FinalValues.t) (correction : Correction)
  : FinalValues.t :=
  if bool_decide (fieldName correction ∈ isFieldNames) then
    FinalValues.make
      (JsObject.set (FinalValues.income_statement acc)
         (fieldName correction) (Some (correctedValue correction)))
      (FinalValues.balance_sheet acc)
  else
    FinalValues.make
      (FinalValues.income_statement acc)
      (JsObject.set (FinalValues.balance_sheet acc)
         (fieldName correction) (Some (correctedValue correction))).

Definition buildFinalValues : FinalValues.t :=
  let isValues := match isLayer2 with Some l => L2.values l | None => ∅ end in
  let bsValues := match bsLayer2 with Some l => L2.values l | None => ∅ end in
  fold_left applyCorrection corrections (FinalValues.make isValues bsValues).

Definition finalValues : FinalValues.t := buildFinalValues.

Definition correctedFieldNames : gset string :=
  list_to_set (map fieldName corrections).

Definition allFlaggedFields : gset string :=
  list_to_set
    ((match isLayer2 with Some l => L2.flaggedFields l | None => [] end) ++
     (match bsLayer2 with Some l => L2.flaggedFields l | None => [] end))%list.

(** [v !== null && v !== 0] over the values of both maps. *)
Definition totalPopulated : nat :=
  length
    (List.filter
       (fun v : option number =>
          match v with
          | Some x => negb (JsNumber.strictEq x 0%float)
          | None => false
          end)
       (map snd (map_to_list (FinalValues.income_statement finalValues)) ++
        map snd (map_to_list (FinalValues.balance_sheet finalValues)))%list).

(** Only the length of the filtered array is read, so the order in which
    the set is spread does not matter. *)
Definition flaggedRemaining : nat :=
  length
    (List.filter
       (fun f => negb (bool_decide (f ∈ correctedFieldNames)))
       (elements allFlaggedFields)).

(** [finalValues.balance_sheet[key] ?? 0] *)
Definition totalOrZero (key : string) : number :=
  match FinalValues.balance_sheet finalValues !! key with
  | Some (Some v) => v
  | _ => 0%float
  end.

Definition totalAssets : number := totalOrZero "Total Assets".
Definition totalLE : number := totalOrZero "Total Liabilities and Equity".
Definition balanceDiff : number := PrimFloat.sub totalAssets totalLE.
Definition isBalanced : bool := PrimFloat.ltb (PrimFloat.abs balanceDiff) tolerance.

Definition statementHeaderRow (l : string) : TableRow :=
  mkTableRow l None None (Some true) None None None None.

Definition headerRow (h : string) : TableRow :=
  mkTableRow h None None None (Some true) None None None.

Definition balanceCheckRow : TableRow :=
  mkTableRow "Check" None None None None (Some true) None None.

(** The row pushed for one field, reading its value in [values]. The
    bracket read [finalValues.income_statement[field]] (or the one of the
    balance sheet) is the map's lookup: the row is the one the source builds
    when [field] is not called like a member of [Object.prototype]. *)
Definition fieldRow (values : gmap string (option number)) (field : string)
  : TableRow :=
  let rawValue : option number :=
    match values !! field with
    | Some v => v
    | None => None
    end in
  let corrected := bool_decide (field ∈ correctedFieldNames) in
  let flagged := bool_decide (field ∈ allFlaggedFields) && negb corrected in
  {| label := field;
     value := match rawValue with
              | Some v => Some (Formatters.formatFieldValue intl field (Some v))
              | None => None
              end;
     rawValue := Some rawValue;
     isStatementHeader := None;
     isHeader := None;
     isBalanceCheck := None;
     corrected := Some corrected;
     flagged := Some flagged |}.

Definition sectionHeader (section : TemplateSection) : list TableRow :=
  match header section with
  | Some h => if JsString.truthy h then [headerRow h] else []
  | None => []
  end.

Definition buildRows : list TableRow :=
  ((statementHeaderRow "Income Statement" ::
   flat_map
     (fun section =>
        sectionHeader section ++
        map (fieldRow (FinalValues.income_statement finalValues)) (fields section))
     isSections) ++
  (statementHeaderRow "Balance Sheet" ::
   flat_map
     (fun section =>
        sectionHeader section ++
        map
          (fun field =>
             if String.eqb field "Check" then balanceCheckRow
             else fieldRow (FinalValues.balance_sheet finalValues) field)
          (fields section))
     bsSections))%list.

Definition rows : list TableRow := buildRows.

End Component.

(** Which [<tr>] shape [rows.map] returns for a row of the output table. *)
Inductive RowShape : Set :=
  StatementHeaderRow | HeaderRow | BalanceCheckRow | FieldRow.

Definition rowShape (row : TableRow) : RowShape :=
  if truthyFlag (isStatementHeader row) then StatementHeaderRow
  else if truthyFlag (isHeader row) then HeaderRow
  else if truthyFlag (isBalanceCheck row) then BalanceCheckRow
  else FieldRow.

(** [{row.flagged && <span ...>Flagged</span>}] *)
Definition showsFlaggedBadge (row : TableRow) : bool :=
  match rowShape row with
  | FieldRow => truthyFlag (flagged row)
  | _ => false
  end.

(** [{row.corrected && <span ...>Corrected</span>}] *)
Definition showsCorrectedBadge (row : TableRow) : bool :=
  match rowShape row with
  | FieldRow => truthyFlag (corrected row)
  | _ => false
  end.

End Step3Finalize.

(** ** The rule-merge engine

    The merge itself runs in the backend, which hands the Layer B prompt
    (backend/prompts, the merge prompt) to a language model and overwrites the
    company's context file with the answer. Only the prompt is part of the
    sources at hand, so the engine is modelled from the specification. What
    is proved of it is proved of the engine the specification describes:
    nothing in the sources checks what the language model answers. *)
Module RuleMerge.

(** Modelled from the spec: the section taxonomy of the rule store (the
    backend's template sections, which are not in the sources; the order is
    the one the merge prompt lists). *)
Inductive RuleSection : Set :=
| Revenue | CostOfGoodsSold | OperatingExpenses | BelowTheLine | EBITDA
| CurrentAssets | NonCurrentAssets | CurrentLiabilities
| NonCurrentLiabilities | Equity.

Definition taxonomy : list RuleSection :=
  [Revenue; CostOfGoodsSold; OperatingExpenses; BelowTheLine; EBITDA;
   CurrentAssets; NonCurrentAssets; CurrentLiabilities;
   NonCurrentLiabilities; Equity].

Definition sectionEqb (a b : RuleSection) : bool :=
  match a, b with
  | Revenue, Revenue | CostOfGoodsSold, CostOfGoodsSold
  | OperatingExpenses, OperatingExpenses | BelowTheLine, BelowTheLine
  | EBITDA, EBITDA | CurrentAssets, CurrentAssets
  | NonCurrentAssets, NonCurrentAssets
  | CurrentLiabilities, CurrentLiabilities
  | NonCurrentLiabilities, NonCurrentLiabilities | Equity, Equity => true
  | _, _ => false
  end.

(** Modelled from the spec: the [ContextRule] record of the data model
    (backend code, not in the sources). *)
Record ContextRule : Set := mkRule {
  section : RuleSection;
  referencedFields : list string;
  text : string
}.

(** Modelled from the spec: the instruction record handed to the merge
    engine, [{text, referencedFields}] (backend code, not in the sources). *)
Module Instruction.
Record t : Set := make {
  text : string;
  referencedFields : list string
}.
End Instruction.

(** Modelled from the spec: the rule store, one ordered list of rules per
    section. A section exists in the persisted document exactly when its
    list is not empty (sections are created lazily and never persisted
    empty). The backend's store is not in the sources. *)
Definition RuleStore : Set := RuleSection -> list ContextRule.

Definition emptyStore : RuleStore := fun _ => [].

Definition setSection (store : RuleStore) (sec : RuleSection)
  (rules : list ContextRule) : RuleStore :=
  fun s => if sectionEqb s sec then rules else store s.

(** Modelled from the spec: the persisted document, the non-empty sections
    in taxonomy order (the backend's writer is not in the sources). *)
Definition document (store : RuleStore) : list (RuleSection * list ContextRule) :=
  List.filter (fun entry => match snd entry with [] => false | _ :: _ => true end)
    (map (fun s => (s, store s)) taxonomy).

Inductive MergeAction : Set := DISCARD | AMEND | APPEND.

(** Modelled from the spec: the outcome of the policy interface of the
    design notes, "the three outcomes as a tagged variant". The judgement
    itself (is the instruction redundant, a refinement of which rule, or
    new, and which section is the destination) is the external collaborator's;
    it is not in the sources. For a refinement the collaborator names the
    rule and supplies what to add and where: each addition comes with the
    number of characters of the rule's remaining text that stay in front of
    it. An addition in front of everything or behind everything is appended,
    any other is interleaved. *)
Inductive Decision : Set :=
| Redundant
| Refines (target : RuleSection) (index : nat) (additions : list (nat * string))
| New (target : RuleSection).

Definition Policy : Set := RuleStore -> Instruction.t -> Decision.

(** The first [n] characters of a text, and the text without them. *)
Fixpoint takeChars (n : nat) (s : string) : string :=
  match n, s with
  | S m, String c r => String c (takeChars m r)
  | _, _ => EmptyString
  end.

Fixpoint dropChars (n : nat) (s : string) : string :=
  match n, s with
  | S m, String _ r => dropChars m r
  | _, _ => s
  end.

(** Modelled from the spec: "append/interleave, don't replace". The
    existing text is cut where the additions go and they are put in between;
    the engine takes no replacement text. The backend's rewriting is not in
    the sources. *)
Fixpoint weave (existing : string) (additions : list (nat * string)) : string :=
  match additions with
  | [] => existing
  | (kept, added) :: rest =>
      takeChars kept existing ++ added ++ weave (dropChars kept existing) rest
  end.


(** Modelled from the spec: AMEND rewrites the rule's text "to a superset
    that preserves every previously valid case (never delete information;
    append/interleave, don't replace)". Only the text is rewritten. *)
Definition amend (rule : ContextRule) (additions : list (nat * string))
  : ContextRule :=
  {| section := section rule;
     referencedFields := referencedFields rule;
     text := weave (text rule) additions |}.


Definition newRule (target : RuleSection) (instruction : Instruction.t) : ContextRule :=
  {| section := target;
     referencedFields := Instruction.referencedFields instruction;
     text := Instruction.text instruction |}.

Record MergeResult : Set := mkMergeResult {
  action : MergeAction;
  ruleStore' : RuleStore;
  needsReview : bool
}.

(** Modelled from the spec: [Merge(ruleStore, instruction) -> (action,
    ruleStore')] of the operation surface (the backend's merge function is
    not in the sources). DISCARD returns the store unchanged; AMEND rewrites
    the named rule in place; APPEND adds an entry at the end of the
    destination section, which creates the section when it was empty. A
    refinement of a rule that does not exist is the [MergeAmbiguous] case:
    it is routed to APPEND and marked for review. *)
Definition Merge (policy : Policy) (store : RuleStore) (instruction : Instruction.t)
  : MergeResult :=
  match policy store instruction with
  | Redundant => mkMergeResult DISCARD store false
  | Refines target index additions =>
      match store target !! index with
      | Some rule =>
          mkMergeResult AMEND
            (setSection store target
               (<[index := amend rule additions]> (store target)))
            false
      | None =>
          mkMergeResult APPEND
            (setSection store target
               (store target ++ [newRule target instruction])%list)
            true
      end
  | New target =>
      mkMergeResult APPEND
        (setSection store target
           (store target ++ [newRule target instruction])%list)
        false
  end.

End RuleMerge.

(** ** Specification-level views of the store, used by the proofs *)

(** The corrections list after [addCorrection], written as one recursion:
    the first entry for the field is replaced where it stands, and the
    correction is appended when there is none. *)
Fixpoint upsert (c : Correction) (l : list Correction) : list Correction :=
  match l with
  | [] => [c]
  | x :: r => if sameField (fieldName c) x then c :: r else x :: upsert c r
  end.

(** The correction the [for ... of] loop of [buildFinalValues] applies last
    for a field, which is the one whose value stays in the map. *)
Definition lastCorrection (name : string) (l : list Correction) : option Correction :=
  List.find (sameField name) (rev l).

(** The names of the corrected fields, in list order. *)
Definition correctedNames (l : list Correction) : list string := map fieldName l.

(** The value the balance check reads for a total of the balance sheet: the
    value of the last correction routed to the balance-sheet map, else the
    classified value, else zero. *)
Definition resolvedTotal (IS_TEMPLATE_FIELDS : list string)
  (template : option TemplateResponse) (layer2Results : gmap string Layer2Result)
  (corrections : list Correction) (key : string) : number :=
  let classified :=
    match layer2Results !! "balance_sheet" with
    | Some l => match L2.values l !! key with
                | Some (Some v) => v
                | _ => 0%float
                end
    | None => 0%float
    end in
  match lastCorrection key corrections with
  | Some c =>
      if bool_decide (key ∈ Step3Finalize.isFieldNames IS_TEMPLATE_FIELDS template)
      then classified
      else correctedValue c
  | None => classified
  end.

(** The classified values of a statement, [layer2Results[key]?.values ?? {}]. *)
Definition classifiedValues (layer2Results : gmap string Layer2Result)
  (key : string) : gmap string (option number) :=
  match layer2Results !! key with
  | Some l => L2.values l
  | None => ∅
  end.

(** The fields Layer 2 flagged in a statement,
    [layer2Results[key]?.flaggedFields ?? []]. *)
Definition classifiedFlags (layer2Results : gmap string Layer2Result)
  (key : string) : list string :=
  match layer2Results !! key with
  | Some l => L2.flaggedFields l
  | None => []
  end.


(** The rows of the Step 3 table that stand for a template field: value
    rows and the balance-check row, not the two kinds of header. *)
Definition isTemplateFieldRow (row : Step3Finalize.TableRow) : bool :=
  match Step3Finalize.rowShape row with
  | Step3Finalize.FieldRow | Step3Finalize.BalanceCheckRow => true
  | _ => false
  end.

(** ** Worked inputs

    Concrete states and corrections on which the results below are
    evaluated. *)

Definition revenueFix : Correction :=
  mkCorrection "Gross Revenue" 100%float 250%float
    (Some "Source reports net of returns") company_specific "2024-03-31T10:00:00.000Z".

Definition revenueFixAgain : Correction :=
  mkCorrection "Gross Revenue" 100%float 300%float
    (Some "Restated by the company") one_off_error "2024-03-31T11:00:00.000Z".

Definition cashFix : Correction :=
  mkCorrection "Cash" 10%float 12%float
    (Some "Restricted cash belongs here") general_fix "2024-03-31T10:05:00.000Z".

Definition rentFix : Correction :=
  mkCorrection "Rent" 7%float 8%float
    (Some "Lease line") one_off_error "2024-03-31T10:10:00.000Z".

(** The store after three corrections were saved. *)
Definition threeSaved : WizardState :=
  run [AAddCorrection revenueFix; AAddCorrection cashFix; AAddCorrection rentFix]
    defaultState.

(** A correction for "Cash" prepared when only [revenueFix] had been saved. *)
Definition staleCashFix : Correction :=
  mkCorrection "Cash" 10%float 11%float
    (Some "Prepared before the cash line was corrected") one_off_error
    "2024-03-31T10:01:00.000Z".

Definition isClassified : Layer2Result :=
  L2.mkLayer2Result "income_statement"
    (<["Gross Revenue" := Some 100%float]> (<["Total Revenue" := Some 100%float]> ∅))
    ∅ ∅ ["Gross Revenue"] ∅.

(** The number the JSON literal [0.01] denotes: the binary64 value nearest
    to one cent. *)
Definition oneCent : number := 0x1.47ae147ae147bp-7%float.

(** A balance sheet whose only classified total is "Total Assets", at one
    cent; "Total Liabilities and Equity" is missing. *)
Definition bsClassified : Layer2Result :=
  L2.mkLayer2Result "balance_sheet"
    (<["Total Assets" := Some oneCent]> (<["Cash" := Some 10%float]> ∅))
    ∅ ∅ ["Cash"] ∅.

Definition isTemplateFields : list string := ["Gross Revenue"; "Total Revenue"; "Rent"].
Definition bsTemplateFields : list string :=
  ["Cash"; "Total Assets"; "Total Liabilities and Equity"; "Check"].

(** The store once both statements are classified and nothing is corrected. *)
Definition reviewed : WizardState :=
  run [ALoadMockStep2 isClassified bsClassified] defaultState.

(** Display text is not inspected; a fixed rendering stands in for it. *)
Definition plainIntl : Intl := mkIntl (fun _ => "n") (fun _ => "n").

(** The correction form as the analyst left it: a value that parses, and a
    reasoning of blanks only. *)
Definition blankReasoningForm : SidePanel.FormState :=
  SidePanel.mkForm "250" "   " company_specific false.

Definition filledForm : SidePanel.FormState :=
  SidePanel.mkForm "250" "Source reports net of returns" company_specific false.

(** The reviewed store with the "Gross Revenue" cell selected. *)
Definition revenueSelected : WizardState :=
  setSelectedCell reviewed (Some "Gross Revenue").

(** The merge prompt's AMEND example: the standing rule on the combined
    'SGA Expenses' line, and the instruction about its new sub-line. *)
Definition sgaRule : RuleMerge.ContextRule :=
  RuleMerge.mkRule RuleMerge.OperatingExpenses
    ["Administrative Expenses"; "Sales & Marketing Expenses"]
    "This company reports a single combined line labeled 'SGA Expenses' with no further breakdown. Classify the full amount as Administrative Expenses, not Sales & Marketing Expenses.".

Definition sgaStore : RuleMerge.RuleStore :=
  RuleMerge.setSection RuleMerge.emptyStore RuleMerge.OperatingExpenses [sgaRule].

Definition subLineInstruction : RuleMerge.Instruction.t :=
  RuleMerge.Instruction.make
    "This company's 'SGA Expenses' line includes a sub-line for 'Marketing Costs'. When the sub-line is present, split: Marketing Costs to Sales & Marketing Expenses, remainder to Administrative Expenses."
    ["Sales & Marketing Expenses"; "Administrative Expenses"].

(** The collaborator's answer that appends the split after the standing
    guidance. *)
Definition subLinePolicy : RuleMerge.Policy :=
  fun _ _ =>
    RuleMerge.Refines RuleMerge.OperatingExpenses 0
      [(178,
        " When a 'Marketing Costs' sub-line is present, split: Marketing Costs to Sales & Marketing Expenses, remainder to Administrative Expenses.")].


(** A classification result in which "Gross Revenue" is covered by two
    checks, one of which failed. *)
Definition isChecked : Layer2Result :=
  L2.mkLayer2Result "income_statement"
    (<["Gross Revenue" := Some 100%float]> ∅)
    ∅
    (<["revenue_total" := mkValidationCheck "revenue_total" FAIL "100 vs 120"]>
       (<["gross_profit" := mkValidationCheck "gross_profit" PASS "ok"]> ∅))
    []
    (<["Gross Revenue" := ["gross_profit"; "revenue_total"; "unknown_check"]]> ∅).

(** Two extraction results, and the tab states of a workbook of two
    sheets, both extracted, the second retyped by the tab switch. *)
Definition plExtract : Layer1Result :=
  mkLayer1Result (<["Net Sales" := 100%float]> ∅) "actual_dollars" "Mar-24".

Definition bsExtract : Layer1Result :=
  mkLayer1Result (<["Cash" := 10%float]> ∅) "actual_dollars" "Mar-24".

Definition bothExtracted : gmap string Step1Upload.TabState :=
  <["BS" := Step1Upload.mkTabState (Some SheetType.balance_sheet)
              (Some Step1Upload.TabStatus.done) None]>
    (<["P&L" := Step1Upload.mkTabState (Some SheetType.income_statement)
                  (Some Step1Upload.TabStatus.done) None]> ∅).

Definition acme : Step1Upload.Company.t :=
  Step1Upload.Company.make 1 "Acme" "acme.md".


(** A correction of the balance sheet's "Check" field. *)
Definition checkFix : Correction :=
  mkCorrection "Check" 0%float 1%float
    (Some "Rounding in the source") one_off_error "2024-03-31T10:25:00.000Z".

Definition totalLEFix : Correction :=
  mkCorrection "Total Liabilities and Equity" 0%float oneCent
    (Some "Total row was not picked up") one_off_error "2024-03-31T10:30:00.000Z".

(** ** Lemmas on the wizard store *)

Lemma sameField_true name c : sameField name c = true <-> fieldName c = name.
Proof. unfold sameField. apply String.eqb_eq. Qed.

Lemma sameField_false name c : sameField name c = false <-> fieldName c <> name.
Proof. unfold sameField. apply String.eqb_neq. Qed.

Lemma sameField_refl c : sameField (fieldName c) c = true.
Proof. by apply sameField_true. Qed.

Lemma findIndex_range {A} (p : A -> bool) (l : list A) :
  (findIndex p l = -1 \/ 0 <= findIndex p l < Z.of_nat (length l))%Z.
Proof.
  induction l as [|x r IH]; simpl; [by left|].
  destruct (p x); [right; lia|].
  destruct (Z.leb_spec 0 (findIndex p r)); [right; lia | by left].
Qed.

(** [addCorrection] writes exactly [upsert] into the corrections field. *)
Lemma findIndex_upsert c l :
  (if (0 <=? findIndex (sameField (fieldName c)) l)%Z
   then <[Z.to_nat (findIndex (sameField (fieldName c)) l) := c]> l
   else (l ++ [c])%list) = upsert c l.
Proof.
  induction l as [|x r IH]; simpl; [done|].
  destruct (sameField (fieldName c) x) eqn:Hx; simpl; [done|].
  destruct (findIndex_range (sameField (fieldName c)) r) as [Hn|Hr].
  - rewrite Hn in *. simpl in *. by rewrite <- IH.
  - destruct (Z.leb_spec 0 (findIndex (sameField (fieldName c)) r)) as [Hle|Hlt]; [|lia].
    destruct (Z.leb_spec 0 (findIndex (sameField (fieldName c)) r + 1)) as [_|Hlt]; [|lia].
    rewrite <- IH.
    replace (Z.to_nat (findIndex (sameField (fieldName c)) r + 1))
      with (S (Z.to_nat (findIndex (sameField (fieldName c)) r))) by lia.
    done.
Qed.

Lemma addCorrection_upsert s c :
  addCorrection s c = set_corrections s (upsert c (corrections s)).
Proof.
  unfold addCorrection. rewrite <- findIndex_upsert.
  by destruct (0 <=? findIndex (sameField (fieldName c)) (corrections s))%Z.
Qed.

Lemma corrections_addCorrection s c :
  corrections (addCorrection s c) = upsert c (corrections s).
Proof. by rewrite addCorrection_upsert. Qed.

Lemma set_corrections_twice s l l' :
  set_corrections (set_corrections s l) l' = set_corrections s l'.
Proof. done. Qed.

Lemma set_corrections_same s : set_corrections s (corrections s) = s.
Proof. by destruct s. Qed.

Lemma upsert_idem c l : upsert c (upsert c l) = upsert c l.
Proof.
  induction l as [|x r IH]; simpl.
  - by rewrite sameField_refl.
  - destruct (sameField (fieldName c) x) eqn:Hx; simpl.
    + by rewrite sameField_refl.
    + by rewrite Hx, IH.
Qed.

Lemma addCorrection_idem s c :
  addCorrection (addCorrection s c) c = addCorrection s c.
Proof.
  rewrite !addCorrection_upsert. simpl.
  by rewrite set_corrections_twice, upsert_idem.
Qed.

Lemma find_upsert c l : List.find (sameField (fieldName c)) (upsert c l) = Some c.
Proof.
  induction l as [|x r IH]; simpl.
  - by rewrite sameField_refl.
  - destruct (sameField (fieldName c) x) eqn:Hx; simpl.
    + by rewrite sameField_refl.
    + by rewrite Hx.
Qed.

Lemma find_upsert_ne c l name :
  name <> fieldName c ->
  List.find (sameField name) (upsert c l) = List.find (sameField name) l.
Proof.
  intros Hne. induction l as [|x r IH]; simpl.
  - destruct (sameField name c) eqn:Hc; [|done].
    apply sameField_true in Hc. congruence.
  - destruct (sameField (fieldName c) x) eqn:Hx; simpl.
    + apply sameField_true in Hx.
      destruct (sameField name c) eqn:Hc; [apply sameField_true in Hc; congruence|].
      destruct (sameField name x) eqn:Hnx; [apply sameField_true in Hnx; congruence|done].
    + destruct (sameField name x); [done|apply IH].
Qed.

Lemma correctedNames_upsert_in c l :
  In (fieldName c) (correctedNames l) -> correctedNames (upsert c l) = correctedNames l.
Proof.
  induction l as [|x r IH]; simpl; [done|].
  intros Hin. destruct (sameField (fieldName c) x) eqn:Hx; simpl.
  - apply sameField_true in Hx. by rewrite Hx.
  - apply sameField_false in Hx. destruct Hin as [Heq|Hin]; [congruence|].
    by rewrite IH.
Qed.

Lemma correctedNames_upsert_notin c l :
  ~ In (fieldName c) (correctedNames l) ->
  upsert c l = (l ++ [c])%list.
Proof.
  induction l as [|x r IH]; simpl; [done|].
  intros Hnin. destruct (sameField (fieldName c) x) eqn:Hx.
  - apply sameField_true in Hx. tauto.
  - rewrite IH; [done|tauto].
Qed.

Lemma NoDup_upsert c l :
  List.NoDup (correctedNames l) -> List.NoDup (correctedNames (upsert c l)).
Proof.
  intros Hnd.
  destruct (in_dec string_dec (fieldName c) (correctedNames l)) as [Hin|Hnin].
  - by rewrite correctedNames_upsert_in.
  - rewrite correctedNames_upsert_notin by done.
    unfold correctedNames. rewrite map_app. simpl.
    apply NoDup_ListNoDup. apply NoDup_app. split_and!.
    + by apply NoDup_ListNoDup.
    + intros x Hx Hx'. apply list_elem_of_In in Hx.
      apply list_elem_of_singleton in Hx'. subst. done.
    + apply NoDup_singleton.
Qed.

Lemma NoDup_filter_names (p : Correction -> bool) l :
  List.NoDup (correctedNames l) -> List.NoDup (correctedNames (List.filter p l)).
Proof.
  induction l as [|x r IH]; simpl; [done|].
  intros Hnd. inversion Hnd as [|? ? Hnin Hnd']; subst.
  destruct (p x); simpl; [|by apply IH].
  constructor; [|by apply IH].
  intros Hin. apply Hnin. unfold correctedNames in *.
  apply in_map_iff in Hin as (y & Hy & Hin). apply in_map_iff.
  exists y. split; [done|]. by apply filter_In in Hin as [? _].
Qed.

(** The store's invariant: no two corrections name the same field. *)
Lemma step_NoDup s a :
  List.NoDup (correctedNames (corrections s)) ->
  List.NoDup (correctedNames (corrections (step s a))).
Proof.
  intros Hnd. destruct a; simpl; try done; try constructor.
  - rewrite corrections_addCorrection. by apply NoDup_upsert.
  - by apply NoDup_filter_names.
Qed.

Lemma run_NoDup trace s :
  List.NoDup (correctedNames (corrections s)) ->
  List.NoDup (correctedNames (corrections (run trace s))).
Proof.
  revert s. induction trace as [|a tr IH]; intros s Hnd; simpl; [done|].
  apply IH. by apply step_NoDup.
Qed.

Lemma upsert_in_place c l i c0 :
  List.NoDup (correctedNames l) ->
  l !! i = Some c0 -> fieldName c0 = fieldName c ->
  upsert c l = <[i := c]> l.
Proof.
  revert i. induction l as [|x r IH]; intros i Hnd Hi Hname; [done|].
  inversion Hnd as [|? ? Hnin Hnd']; subst. simpl.
  destruct (sameField (fieldName c) x) eqn:Hx.
  - apply sameField_true in Hx. destruct i as [|j]; [done|].
    exfalso. apply Hnin. simpl in Hi. unfold correctedNames.
    apply in_map_iff. exists c0. split; [congruence|].
    apply list_elem_of_In. by eapply list_elem_of_lookup_2.
  - apply sameField_false in Hx. destruct i as [|j]; simpl in Hi.
    + congruence.
    + simpl. f_equal. by apply IH.
Qed.

Lemma filter_sameField_notin name l :
  ~ In name (correctedNames l) -> List.filter (sameField name) l = [].
Proof.
  induction l as [|x r IH]; simpl; [done|].
  intros Hnin. destruct (sameField name x) eqn:Hx.
  - apply sameField_true in Hx. tauto.
  - apply IH. tauto.
Qed.

Lemma NoDup_at_most_one l name :
  List.NoDup (correctedNames l) -> length (List.filter (sameField name) l) <= 1.
Proof.
  induction l as [|x r IH]; simpl; [lia|].
  intros Hnd. inversion Hnd as [|? ? Hnin Hnd']; subst.
  destruct (sameField name x) eqn:Hx; [|by apply IH].
  apply sameField_true in Hx. simpl.
  rewrite filter_sameField_notin; [simpl; lia|congruence].
Qed.

(** ** The correction store: idempotence and replacement *)

(** C2. [addCorrection] is idempotent: for every wizard state and every
    correction, applying the same correction twice yields the very state
    that applying it once yields. *)
Theorem addCorrection_idempotent (s : WizardState) (c : Correction) :
  addCorrection (addCorrection s c) c = addCorrection s c.
Proof. apply addCorrection_idem. Qed.

(** C3. After any sequence of store operations from the initial state (the
    sequences of [addCorrection] and [removeCorrection] among them), the
    corrections list holds at most one entry per field name; and adding a
    correction for a field that already has an entry overwrites that entry
    where it stands, leaving the list's length and the other entries as they
    were. *)
Theorem corrections_replaced_not_accumulated (trace : list Action) :
  let s := run trace defaultState in
  List.NoDup (map fieldName (corrections s)) /\
  (forall name, length (List.filter (sameField name) (corrections s)) <= 1) /\
  (forall (c c0 : Correction) (i : nat),
      corrections s !! i = Some c0 -> fieldName c0 = fieldName c ->
      corrections (addCorrection s c) = <[i := c]> (corrections s) /\
      length (corrections (addCorrection s c)) = length (corrections s)).
Proof.
  intros s.
  assert (List.NoDup (correctedNames (corrections s))) as Hnd.
  { apply run_NoDup. simpl. constructor. }
  split_and!; [done| |].
  - intros name. by apply NoDup_at_most_one.
  - intros c c0 i Hi Hname. rewrite corrections_addCorrection.
    rewrite (upsert_in_place c _ i c0) by done.
    split; [done|apply length_insert].
Qed.

(** A run of the store in which the correction for "Gross Revenue" is
    superseded: the second correction takes the place of the first. *)
Lemma corrections_replaced_not_accumulated_witness :
  corrections (addCorrection threeSaved revenueFixAgain)
  = [revenueFixAgain; cashFix; rentFix].
Proof.
  destruct (corrections_replaced_not_accumulated
              [AAddCorrection revenueFix; AAddCorrection cashFix; AAddCorrection rentFix])
    as (_ & _ & H).
  destruct (H revenueFixAgain revenueFix 0 eq_refl eq_refl) as [-> _].
  reflexivity.
Defined.

(** ** Step 3: the final values are the classified values overlaid with the
    corrections *)

Lemma lastCorrection_snoc name l c :
  lastCorrection name (l ++ [c])%list =
  if sameField name c then Some c else lastCorrection name l.
Proof. unfold lastCorrection. by rewrite rev_app_distr. Qed.

Lemma reachesSetter_other {A} (obj : gmap string A) key :
  key <> "__proto__" -> JsObject.reachesSetter obj key = false.
Proof.
  intros Hne. unfold JsObject.reachesSetter.
  by rewrite (proj2 (String.eqb_neq key "__proto__") Hne).
Qed.

Lemma reachesSetter_own {A} (obj : gmap string A) key :
  is_Some (obj !! key) -> JsObject.reachesSetter obj key = false.
Proof.
  intros [v Hv]. unfold JsObject.reachesSetter. rewrite Hv. apply andb_false_r.
Qed.


Lemma lookup_set_ne {A} (obj : gmap string A) key v f :
  key <> f -> JsObject.set obj key v !! f = obj !! f.
Proof.
  intros Hne. unfold JsObject.set.
  destruct (JsObject.reachesSetter obj key); [done|].
  by rewrite lookup_insert_ne.
Qed.

Lemma lookup_set_eq {A} (obj : gmap string A) key v :
  JsObject.set obj key v !! key =
  if JsObject.reachesSetter obj key then obj !! key else Some v.
Proof.
  unfold JsObject.set.
  destruct (JsObject.reachesSetter obj key); [done|].
  by rewrite lookup_insert_eq.
Qed.

(** A bracket write does not change which later writes reach the setter. *)
Lemma reachesSetter_set {A} (obj : gmap string A) key v f :
  JsObject.reachesSetter (JsObject.set obj key v) f = JsObject.reachesSetter obj f.
Proof.
  destruct (decide (key = f)) as [->|Hne].
  - unfold JsObject.set.
    destruct (JsObject.reachesSetter obj f) eqn:Hr; [done|].
    apply reachesSetter_own. rewrite lookup_insert_eq. by eexists.
  - unfold JsObject.reachesSetter. by rewrite lookup_set_ne.
Qed.

Lemma fold_applyCorrection_reaches IS tpl l acc f :
  JsObject.reachesSetter
    (FinalValues.income_statement
       (fold_left (Step3Finalize.applyCorrection IS tpl) l acc)) f =
  JsObject.reachesSetter (FinalValues.income_statement acc) f /\
  JsObject.reachesSetter
    (FinalValues.balance_sheet
       (fold_left (Step3Finalize.applyCorrection IS tpl) l acc)) f =
  JsObject.reachesSetter (FinalValues.balance_sheet acc) f.
Proof.
  revert acc. induction l as [|c l IH]; intros acc; [done|]. simpl.
  destruct (IH (Step3Finalize.applyCorrection IS tpl acc c)) as [-> ->].
  unfold Step3Finalize.applyCorrection.
  destruct (bool_decide (fieldName c ∈ Step3Finalize.isFieldNames IS tpl));
    simpl; by rewrite reachesSetter_set.
Qed.

Lemma fold_applyCorrection_is IS tpl l acc f :
  FinalValues.income_statement
    (fold_left (Step3Finalize.applyCorrection IS tpl) l acc) !! f =
  match lastCorrection f l with
  | Some c =>
      if bool_decide (f ∈ Step3Finalize.isFieldNames IS tpl)
      then if JsObject.reachesSetter (FinalValues.income_statement acc) f
           then FinalValues.income_statement acc !! f
           else Some (Some (correctedValue c))
      else FinalValues.income_statement acc !! f
  | None => FinalValues.income_statement acc !! f
  end.
Proof.
  induction l as [|c l IH] using rev_ind; [done|].
  rewrite fold_left_app, lastCorrection_snoc. simpl.
  unfold Step3Finalize.applyCorrection at 1.
  destruct (sameField f c) eqn:Hc.
  - apply sameField_true in Hc. subst f.
    destruct (bool_decide (fieldName c ∈ Step3Finalize.isFieldNames IS tpl)) eqn:Hd;
      simpl.
    + rewrite lookup_set_eq.
      rewrite (proj1 (fold_applyCorrection_reaches IS tpl l acc (fieldName c))).
      destruct (JsObject.reachesSetter (FinalValues.income_statement acc)
                  (fieldName c)) eqn:Hr; [|done].
      rewrite IH, ?Hd, ?Hr. by destruct (lastCorrection (fieldName c) l).
    + rewrite IH, ?Hd. by destruct (lastCorrection (fieldName c) l).
  - apply sameField_false in Hc.
    destruct (bool_decide (fieldName c ∈ Step3Finalize.isFieldNames IS tpl)) eqn:Hd;
      simpl; [|apply IH].
    rewrite lookup_set_ne by done. apply IH.
Qed.

Lemma fold_applyCorrection_bs IS tpl l acc f :
  FinalValues.balance_sheet
    (fold_left (Step3Finalize.applyCorrection IS tpl) l acc) !! f =
  match lastCorrection f l with
  | Some c =>
      if bool_decide (f ∈ Step3Finalize.isFieldNames IS tpl)
      then FinalValues.balance_sheet acc !! f
      else if JsObject.reachesSetter (FinalValues.balance_sheet acc) f
           then FinalValues.balance_sheet acc !! f
           else Some (Some (correctedValue c))
  | None => FinalValues.balance_sheet acc !! f
  end.
Proof.
  induction l as [|c l IH] using rev_ind; [done|].
  rewrite fold_left_app, lastCorrection_snoc. simpl.
  unfold Step3Finalize.applyCorrection at 1.
  destruct (sameField f c) eqn:Hc.
  - apply sameField_true in Hc. subst f.
    destruct (bool_decide (fieldName c ∈ Step3Finalize.isFieldNames IS tpl)) eqn:Hd;
      simpl.
    + rewrite IH, ?Hd. by destruct (lastCorrection (fieldName c) l).
    + rewrite lookup_set_eq.
      rewrite (proj2 (fold_applyCorrection_reaches IS tpl l acc (fieldName c))).
      destruct (JsObject.reachesSetter (FinalValues.balance_sheet acc)
                  (fieldName c)) eqn:Hr; [|done].
      rewrite IH, ?Hd, ?Hr. by destruct (lastCorrection (fieldName c) l).
  - apply sameField_false in Hc.
    destruct (bool_decide (fieldName c ∈ Step3Finalize.isFieldNames IS tpl)) eqn:Hd;
      simpl; [apply IH|].
    rewrite lookup_set_ne by done. apply IH.
Qed.

Lemma lastCorrection_None name l :
  ~ In name (correctedNames l) -> lastCorrection name l = None.
Proof.
  intros Hnin. unfold lastCorrection.
  destruct (List.find (sameField name) (rev l)) as [c|] eqn:Hf; [|done].
  apply find_some in Hf as [Hin Hc]. apply sameField_true in Hc.
  exfalso. apply Hnin. unfold correctedNames. apply in_map_iff.
  exists c. split; [done|]. by apply in_rev.
Qed.

Lemma NoDup_names_unique l a b :
  List.NoDup (correctedNames l) -> In a l -> In b l ->
  fieldName a = fieldName b -> a = b.
Proof.
  induction l as [|x r IH]; simpl; [done|].
  intros Hnd Ha Hb Hab. inversion Hnd as [|? ? Hnin Hnd']; subst.
  destruct Ha as [->|Ha], Hb as [->|Hb]; [done| | |by apply IH].
  - exfalso. apply Hnin. unfold correctedNames. apply in_map_iff. by exists b.
  - exfalso. apply Hnin. unfold correctedNames. apply in_map_iff. by exists a.
Qed.

Lemma lastCorrection_unique l c :
  List.NoDup (correctedNames l) -> In c l ->
  lastCorrection (fieldName c) l = Some c.
Proof.
  intros Hnd Hin. unfold lastCorrection.
  destruct (List.find (sameField (fieldName c)) (rev l)) as [c'|] eqn:Hf.
  - apply find_some in Hf as [Hin' Hc]. apply sameField_true in Hc.
    f_equal. apply (NoDup_names_unique l); [done| |done|done]. by apply in_rev.
  - exfalso. eapply find_none in Hf; [|apply in_rev in Hin; apply Hin].
    by rewrite sameField_refl in Hf.
Qed.

Lemma isFieldNames_In IS tpl f :
  f ∈ Step3Finalize.isFieldNames IS tpl <->
  In f (flat_map fields (Step3Finalize.isSections IS tpl)).
Proof.
  unfold Step3Finalize.isFieldNames. rewrite elem_of_list_to_set.
  apply list_elem_of_In.
Qed.



(** ** Step 3: the balance check *)

Lemma totalOrZero_resolved IS tpl l2 cs key :
  key <> "__proto__" ->
  Step3Finalize.totalOrZero IS tpl l2 cs key = resolvedTotal IS tpl l2 cs key.
Proof.
  intros Hkey.
  unfold Step3Finalize.totalOrZero, Step3Finalize.finalValues,
    Step3Finalize.buildFinalValues, resolvedTotal, Step3Finalize.bsLayer2.
  rewrite fold_applyCorrection_bs. simpl.
  rewrite (reachesSetter_other _ _ Hkey).
  destruct (lastCorrection key cs) as [c|];
    [destruct (bool_decide (key ∈ Step3Finalize.isFieldNames IS tpl))|];
    try done; by destruct (l2 !! "balance_sheet").
Qed.

(** C4, as the code has it. The balance check is computed on every render
    of the finalize step, whatever is missing: each of "Total Assets" and
    "Total Liabilities and Equity" is read from the final balance-sheet map
    (the last correction routed there, else the classified value), a missing
    or null total counting as 0; and it reports balanced exactly when the
    absolute difference of the two is strictly below the 0.01 tolerance. *)
Theorem isBalanced_strictly_below_tolerance (IS : list string)
  (tpl : option TemplateResponse) (l2 : gmap string Layer2Result)
  (cs : list Correction) :
  let assets := resolvedTotal IS tpl l2 cs "Total Assets" in
  let liabilitiesAndEquity := resolvedTotal IS tpl l2 cs "Total Liabilities and Equity" in
  (Step3Finalize.isBalanced IS tpl l2 cs = true <->
   PrimFloat.ltb (PrimFloat.abs (PrimFloat.sub assets liabilitiesAndEquity))
     Step3Finalize.tolerance = true) /\
  (forall key,
     lastCorrection key cs = None ->
     classifiedValues l2 "balance_sheet" !! key = None \/
     classifiedValues l2 "balance_sheet" !! key = Some None ->
     resolvedTotal IS tpl l2 cs key = 0%float).
Proof.
  intros assets liabilitiesAndEquity. subst assets liabilitiesAndEquity. split.
  - unfold Step3Finalize.isBalanced, Step3Finalize.balanceDiff,
      Step3Finalize.totalAssets, Step3Finalize.totalLE.
    by rewrite !totalOrZero_resolved by discriminate.
  - intros key Hlast Hmissing. unfold resolvedTotal, classifiedValues in *.
    rewrite Hlast.
    destruct (l2 !! "balance_sheet") as [l|]; [|done].
    destruct Hmissing as [-> | ->]; done.
Qed.

(** On the balance sheet whose only total is "Total Assets" at one cent, the
    missing "Total Liabilities and Equity" reads 0 and the check is decided
    by the strict comparison. *)
Lemma isBalanced_strictly_below_tolerance_witness :
  resolvedTotal isTemplateFields None (layer2Results reviewed) []
    "Total Liabilities and Equity" = 0%float /\
  (Step3Finalize.isBalanced isTemplateFields None (layer2Results reviewed) [] = true <->
   PrimFloat.ltb (PrimFloat.abs (PrimFloat.sub oneCent 0%float))
     Step3Finalize.tolerance = true).
Proof.
  destruct (isBalanced_strictly_below_tolerance isTemplateFields None
              (layer2Results reviewed) []) as [Hiff Hzero].
  split.
  - apply Hzero; [reflexivity|]. left. reflexivity.
  - exact Hiff.
Defined.

(** C4 as the specification words it, "at most the tolerance", fails at the boundary: with "Total
    Assets" at one cent and "Total Liabilities and Equity" missing, the
    absolute difference is exactly the tolerance, hence at most the
    tolerance, and the check reports an imbalance. *)
Lemma isBalanced_at_tolerance_is_imbalanced :
  Step3Finalize.balanceDiff isTemplateFields None (layer2Results reviewed) []
    = Step3Finalize.tolerance /\
  PrimFloat.leb
    (PrimFloat.abs
       (Step3Finalize.balanceDiff isTemplateFields None (layer2Results reviewed) []))
    Step3Finalize.tolerance = true /\
  Step3Finalize.isBalanced isTemplateFields None (layer2Results reviewed) [] = false.
Proof. split_and!; vm_compute; reflexivity. Qed.

(** The specification's balance scenario: the two totals agree at
    8,524,798.71 and the check reports balanced. *)
Example isBalanced_scenario :
  let bs := L2.mkLayer2Result "balance_sheet"
              (<["Total Assets" := Some (JsNumber.parseFloat "8524798.71")]>
                 (<["Total Liabilities and Equity" :=
                      Some (JsNumber.parseFloat "8524798.71")]> ∅))
              ∅ ∅ [] ∅ in
  Step3Finalize.isBalanced isTemplateFields None (<["balance_sheet" := bs]> ∅) [] = true.
Proof. vm_compute. reflexivity. Qed.

(** ** What a correction does to the store *)

Lemma set_corrections_frame s l :
  set_corrections (set_corrections s l) (corrections s) = s.
Proof. by destruct s. Qed.

(** C1, as the code has it. Applying a correction records it in the
    corrections list, where a lookup by field name finds it, so the field
    shows as edited with the corrected value; every other component of the
    wizard state, the classification results among them, is left as it was.
    The store holds no version counter and nothing is derived again.
    [handleSaveCorrection] stamps the correction and does exactly this. *)
Theorem addCorrection_records_the_correction_only (intl : Intl)
  (s : WizardState) (c : Correction) :
  let s' := addCorrection s c in
  List.find (sameField (fieldName c)) (corrections s') = Some c /\
  set_corrections s' (corrections s) = s /\
  layer2Results s' = layer2Results s /\
  (forall layer2 : option Layer2Result,
     let row := Step2Classify.fieldRow intl layer2 (corrections s') (fieldName c) in
     DataTable.isEdited row = Some true /\
     DataTable.value row =
       Some (Formatters.formatFieldValue intl (fieldName c) (Some (correctedValue c)))) /\
  (forall (now : string) (d : CorrectionData.t),
     fst (Step2Classify.handleSaveCorrection now s d) = addCorrection s (stamp d now)).
Proof.
  intros s'. subst s'. rewrite addCorrection_upsert. simpl.
  split_and!.
  - apply find_upsert.
  - apply set_corrections_frame.
  - done.
  - intros layer2. unfold Step2Classify.fieldRow. by rewrite find_upsert.
  - done.
Qed.

(** The version counter and the re-derivation of C1 are not there: no
    function of the wizard state goes up by one with every correction; and
    on the reviewed statements, correcting "Gross Revenue" from 100 to 250
    changes nothing but the corrections list, and the final value of "Total
    Revenue" is still the classified 100. *)
Lemma addCorrection_bumps_no_version_and_rederives_nothing :
  (~ exists version : WizardState -> Z,
       forall s c, version (addCorrection s c) = (version s + 1)%Z) /\
  set_corrections (addCorrection reviewed revenueFix) [] = reviewed /\
  corrections (addCorrection reviewed revenueFix) = [revenueFix] /\
  FinalValues.income_statement
    (Step3Finalize.buildFinalValues isTemplateFields None
       (layer2Results (addCorrection reviewed revenueFix))
       (corrections (addCorrection reviewed revenueFix)))
    !! "Total Revenue" = Some (Some 100%float).
Proof.
  split_and!; [|reflexivity|reflexivity|reflexivity].
  intros [version Hv].
  pose proof (Hv (addCorrection reviewed revenueFix) revenueFix) as H.
  rewrite addCorrection_idem in H. lia.
Qed.

(** C6, as the code has it. [addCorrection] makes no version check and has
    no failure outcome: whatever earlier state a correction was prepared
    against and whatever happened to the store since, the correction is
    recorded under its field name and the corrections of the other fields
    stay as they were. *)
Theorem addCorrection_never_rejects (before since : list Action) (c : Correction) :
  let prepared := run before defaultState in
  let current := run since prepared in
  List.find (sameField (fieldName c)) (corrections (addCorrection current c)) = Some c /\
  (forall name, name <> fieldName c ->
     List.find (sameField name) (corrections (addCorrection current c)) =
     List.find (sameField name) (corrections current)).
Proof.
  intros prepared current. rewrite corrections_addCorrection. split.
  - apply find_upsert.
  - intros name Hne. by apply find_upsert_ne.
Qed.

(** [staleCashFix] was prepared after the first of three corrections; it is
    applied to the store as it stands after the third, where it is found,
    and the correction of "Rent" is untouched. *)
Lemma addCorrection_never_rejects_witness :
  List.find (sameField "Cash") (corrections (addCorrection threeSaved staleCashFix))
    = Some staleCashFix /\
  List.find (sameField "Rent") (corrections (addCorrection threeSaved staleCashFix))
    = Some rentFix.
Proof.
  destruct (addCorrection_never_rejects
              [AAddCorrection revenueFix]
              [AAddCorrection cashFix; AAddCorrection rentFix]
              staleCashFix) as [Hfound Hkept].
  split.
  - exact Hfound.
  - etransitivity; [apply (Hkept "Rent"); discriminate|reflexivity].
Defined.

(** The rejection of C6 does not happen: a correction for "Cash" prepared
    when one correction had been saved is applied to the store that holds
    three; it silently takes the place of the correction saved in between. *)
Lemma stale_correction_is_applied :
  corrections threeSaved = [revenueFix; cashFix; rentFix] /\
  corrections (addCorrection threeSaved staleCashFix)
    = [revenueFix; staleCashFix; rentFix] /\
  fst (Step2Classify.handleSaveCorrection "2024-03-31T10:20:00.000Z" threeSaved
         (CorrectionData.make "Cash" 10%float 11%float None one_off_error))
    = addCorrection threeSaved
        (mkCorrection "Cash" 10%float 11%float None one_off_error
           "2024-03-31T10:20:00.000Z").
Proof. split_and!; reflexivity. Qed.

(** ** Sheet-type detection *)

Lemma detectSheetType_step1_always_income_statement (name : string) :
  Step1Upload.detectSheetType name = SheetType.income_statement.
Proof. unfold Step1Upload.detectSheetType. by destruct (_ || _). Qed.

(** C10. Step 1's detector answers [income_statement] for every sheet name
    and so never answers [balance_sheet], whereas Step 2's detector, on the
    same name, answers [balance_sheet] whenever the name matches none of its
    income-statement patterns. *)
Theorem detectSheetType_step1_constant_step2_not (name : string) :
  Step1Upload.detectSheetType name = SheetType.income_statement /\
  Step1Upload.detectSheetType name <> SheetType.balance_sheet /\
  (Step2Classify.matchesIncomeStatement name = false ->
   Step2Classify.detectSheetType name = SheetType.balance_sheet).
Proof.
  rewrite detectSheetType_step1_always_income_statement.
  split_and!; [done|done|].
  intros Hno. unfold Step2Classify.detectSheetType. by rewrite Hno.
Qed.

(** The sheet named "Balance Sheet": Step 1 calls it an income statement,
    Step 2 a balance sheet. *)
Lemma detectSheetType_step1_constant_step2_not_witness :
  Step2Classify.matchesIncomeStatement "Balance Sheet" = false /\
  Step1Upload.detectSheetType "Balance Sheet" = SheetType.income_statement /\
  Step2Classify.detectSheetType "Balance Sheet" = SheetType.balance_sheet.
Proof.
  destruct (detectSheetType_step1_constant_step2_not "Balance Sheet")
    as (Hstep1 & _ & Hstep2).
  split_and!; [reflexivity|exact Hstep1|apply Hstep2; reflexivity].
Defined.

(** ** The side panel's save handler *)

Lemma truthy_false_iff s : JsString.truthy s = false <-> s = "".
Proof. destruct s; simpl; split; congruence. Qed.

Lemma handleSave_Some fieldName layer2Result form d :
  snd (SidePanel.handleSave fieldName layer2Result form) = Some d ->
  exists f,
    fieldName = Some f /\ f <> "" /\
    JsNumber.isNaN (JsNumber.parseFloat (SidePanel.correctedValue form)) = false /\
    JsString.trim (SidePanel.correctionReasoning form) <> "" /\
    d = CorrectionData.make f
          (default 0%float (SidePanel.currentValue fieldName layer2Result))
          (JsNumber.parseFloat (SidePanel.correctedValue form))
          (Some (SidePanel.correctionReasoning form))
          (SidePanel.tag form).
Proof.
  unfold SidePanel.handleSave.
  destruct fieldName as [f|]; [|discriminate].
  destruct (JsString.truthy f) eqn:Hf; simpl; [|discriminate].
  destruct (JsNumber.isNaN _) eqn:Hnan; [discriminate|].
  destruct (JsString.truthy (JsString.trim _)) eqn:Hr; simpl; [|discriminate].
  intros [= <-]. exists f. split_and!; try done.
  - intros ->. discriminate.
  - intros Heq. rewrite Heq in Hr. discriminate.
Qed.

(** C7. The save handler produces a correction only when the entered value
    parses as a number and the reasoning is non-empty after trimming: a
    correction it hands to [onSaveCorrection] carries the parsed value and
    the reasoning as entered; when the value does not parse, or the reasoning
    trims to the empty string, no correction is produced and a click on Save
    leaves the wizard state, its corrections included, unchanged. *)
Theorem handleSave_requires_number_and_reasoning
  (IS : list string) (template : option TemplateResponse) (now : string)
  (s : WizardState) (fieldName : option string)
  (layer2Result : option Layer2Result) (form : SidePanel.FormState) :
  let parsed := JsNumber.parseFloat (SidePanel.correctedValue form) in
  let trimmed := JsString.trim (SidePanel.correctionReasoning form) in
  (forall d, snd (SidePanel.handleSave fieldName layer2Result form) = Some d ->
     JsNumber.isNaN parsed = false /\ trimmed <> "" /\
     CorrectionData.correctedValue d = parsed /\
     CorrectionData.reasoning d = Some (SidePanel.correctionReasoning form)) /\
  (JsNumber.isNaN parsed = true \/ trimmed = "" ->
     snd (SidePanel.handleSave fieldName layer2Result form) = None /\
     fst (Step2Classify.clickSave IS template now s form) = s).
Proof.
  intros parsed trimmed. subst parsed trimmed. split.
  - intros d Hd. apply handleSave_Some in Hd as (f & _ & _ & Hnan & Hr & ->).
    by split_and!.
  - intros Hbad.
    assert (forall fn l2, snd (SidePanel.handleSave fn l2 form) = None) as Hnone.
    { intros fn l2.
      destruct (snd (SidePanel.handleSave fn l2 form)) as [d|] eqn:Hd; [|done].
      apply handleSave_Some in Hd as (f & _ & _ & Hnan & Hr & _).
      destruct Hbad as [Hbad|Hbad]; [congruence|done]. }
    split; [apply Hnone|].
    unfold Step2Classify.clickSave.
    specialize (Hnone (selectedCell s) (Step2Classify.activeLayer2 IS template s)).
    destruct (SidePanel.handleSave _ _ form) as [form' [d|]]; [discriminate|done].
Qed.

(** With "Gross Revenue" selected, the form whose reasoning is blank saves
    nothing and only raises the reasoning error; the same value with a
    reasoning is saved as a correction to 250. *)
Lemma handleSave_requires_number_and_reasoning_witness :
  fst (Step2Classify.clickSave isTemplateFields None "2024-03-31T10:00:00.000Z"
         revenueSelected blankReasoningForm) = revenueSelected /\
  SidePanel.handleSave (Some "Gross Revenue") (Some isClassified) blankReasoningForm
    = (SidePanel.setReasoningError blankReasoningForm true, None) /\
  corrections
    (fst (Step2Classify.clickSave isTemplateFields None "2024-03-31T10:00:00.000Z"
            revenueSelected filledForm)) = [revenueFix].
Proof.
  destruct (handleSave_requires_number_and_reasoning isTemplateFields None
              "2024-03-31T10:00:00.000Z" revenueSelected
              (Some "Gross Revenue") (Some isClassified) blankReasoningForm)
    as [_ Hbad].
  destruct Hbad as [_ Hsame]; [right; reflexivity|].
  split_and!; [exact Hsame|reflexivity|vm_compute; reflexivity].
Defined.

(** ** The rule-merge engine never removes rule text *)



Lemma includes_here s p : JsString.startsWith s p = true -> JsString.includes s p = true.
Proof. intros H. destruct s; simpl in *; by rewrite H. Qed.


Lemma includes_refl t : JsString.includes t t = true.
Proof.
  apply includes_here. induction t as [|c t IH]; simpl; [done|].
  by rewrite Ascii.eqb_refl.
Qed.


















(** When the refinement is appended, as in the merge prompt's own AMEND
    example, the former text stays one span. *)
Example Merge_appending_keeps_the_span :
  exists rule',
    RuleMerge.ruleStore' (RuleMerge.Merge subLinePolicy sgaStore subLineInstruction)
      RuleMerge.OperatingExpenses !! 0 = Some rule' /\
    JsString.includes (RuleMerge.text rule') (RuleMerge.text sgaRule) = true.
Proof. eexists. split; [reflexivity|]. vm_compute. reflexivity. Qed.

(** ** Flags and corrections in the two views *)

Lemma elem_of_correctedFieldNames cs f :
  f ∈ Step3Finalize.correctedFieldNames cs <-> In f (map fieldName cs).
Proof.
  unfold Step3Finalize.correctedFieldNames. rewrite elem_of_list_to_set.
  apply list_elem_of_In.
Qed.

(** A row of the Step 3 table is one of the two kinds of header, the
    balance-check row, or the row of a field read in one of the final
    maps. *)
Lemma buildRows_In intl IS BS tpl l2 cs row :
  In row (Step3Finalize.buildRows intl IS BS tpl l2 cs) ->
  Step3Finalize.rowShape row = Step3Finalize.StatementHeaderRow \/
  Step3Finalize.rowShape row = Step3Finalize.HeaderRow \/
  row = Step3Finalize.balanceCheckRow \/
  exists vals field, row = Step3Finalize.fieldRow intl l2 cs vals field.
Proof.
  assert (forall section, In row (Step3Finalize.sectionHeader section) ->
            Step3Finalize.rowShape row = Step3Finalize.HeaderRow) as Hheader.
  { intros section. unfold Step3Finalize.sectionHeader.
    destruct (header section) as [h|]; [|done].
    destruct (JsString.truthy h); [|done]. by intros [<-|[]]. }
  unfold Step3Finalize.buildRows. rewrite in_app_iff. simpl.
  intros [[<-|Hin]|[<-|Hin]]; [by left| |by left|];
    apply in_flat_map in Hin as (section & _ & Hin);
    apply in_app_iff in Hin as [Hin|Hin];
    try (right; left; by apply (Hheader section));
    apply in_map_iff in Hin as (field & <- & _).
  - right; right; right. by eexists _, _.
  - destruct (String.eqb field "Check"); [by right; right; left|].
    right; right; right. by eexists _, _.
Qed.

(** X23. Step 3 clears the flag of a corrected field: in the table that
    [buildRows] returns, no row labelled with a corrected field shows the
    Flagged badge, and every value row so labelled is marked corrected and
    not flagged, whatever Layer 2 flagged. The balance-check row, which
    stands for the field "Check" of the balance sheet, is not a value row:
    it shows no Corrected badge, with or without a correction of "Check". *)
Theorem step3_corrected_field_not_flagged (intl : Intl) (IS BS : list string)
  (tpl : option TemplateResponse) (l2 : gmap string Layer2Result)
  (cs : list Correction) (row : Step3Finalize.TableRow) :
  In row (Step3Finalize.buildRows intl IS BS tpl l2 cs) ->
  In (Step3Finalize.label row) (map fieldName cs) ->
  Step3Finalize.showsFlaggedBadge row = false /\
  (Step3Finalize.rowShape row = Step3Finalize.FieldRow ->
   Step3Finalize.corrected row = Some true /\
   Step3Finalize.flagged row = Some false /\
   Step3Finalize.showsCorrectedBadge row = true) /\
  (Step3Finalize.rowShape row = Step3Finalize.BalanceCheckRow ->
   Step3Finalize.label row = "Check" /\
   Step3Finalize.showsCorrectedBadge row = false).
Proof.
  intros Hrow Hcorrected.
  apply buildRows_In in Hrow as [Hs|[Hs|[->|(vals & field & ->)]]].
  - unfold Step3Finalize.showsFlaggedBadge. rewrite Hs.
    split_and!; [done|congruence|congruence].
  - unfold Step3Finalize.showsFlaggedBadge. rewrite Hs.
    split_and!; [done|congruence|congruence].
  - split_and!; [done|discriminate|done].
  - simpl in Hcorrected. apply elem_of_correctedFieldNames in Hcorrected.
    unfold Step3Finalize.fieldRow, Step3Finalize.showsFlaggedBadge,
      Step3Finalize.showsCorrectedBadge, Step3Finalize.rowShape. simpl.
    rewrite (bool_decide_true _ Hcorrected), andb_false_r.
    split_and!; [done|done|discriminate].
Qed.

(** Step 3's count of remaining flags leaves the corrected fields out. *)
Lemma step3_flaggedRemaining_counts_uncorrected l2 cs f :
  In f (List.filter
          (fun f => negb (bool_decide (f ∈ Step3Finalize.correctedFieldNames cs)))
          (elements (Step3Finalize.allFlaggedFields l2))) <->
  f ∈ Step3Finalize.allFlaggedFields l2 /\ ~ In f (map fieldName cs).
Proof.
  rewrite filter_In, <- list_elem_of_In, elem_of_elements.
  rewrite negb_true_iff, bool_decide_eq_false, elem_of_correctedFieldNames.
  done.
Qed.

(** Step 2 computes a row's flag from the classification result alone: the
    corrections do not enter it. *)
Lemma step2_flag_ignores_corrections intl layer2 cs cs' field :
  DataTable.isFlagged (Step2Classify.fieldRow intl layer2 cs field) =
  DataTable.isFlagged (Step2Classify.fieldRow intl layer2 cs' field).
Proof. done. Qed.

Lemma existsb_eqb_In f l : In f l -> existsb (String.eqb f) l = true.
Proof.
  intros Hin. apply existsb_exists. exists f. split; [done|apply String.eqb_refl].
Qed.

(** Hence a field Layer 2 flagged keeps its flagged badge in the Step 2
    table once it is corrected, next to the edited badge. *)
Lemma step2_corrected_field_still_flagged intl l cs c :
  In (fieldName c) (L2.flaggedFields l) -> In c cs ->
  let row := Step2Classify.fieldRow intl (Some l) cs (fieldName c) in
  DataTable.showsFlaggedBadge row = true /\ DataTable.showsEditedBadge row = true.
Proof.
  intros Hflag Hin. unfold DataTable.showsFlaggedBadge, DataTable.showsEditedBadge,
    DataTable.rowShape, Step2Classify.fieldRow. simpl.
  rewrite existsb_eqb_In by done. split; [done|].
  destruct (List.find (sameField (fieldName c)) cs) eqn:Hf; [done|].
  eapply find_none in Hf; [|exact Hin]. by rewrite sameField_refl in Hf.
Qed.

(** C5, at the input where the code departs from it. Layer 2 flagged "Gross
    Revenue" and the analyst corrected it. The Step 3 table shows the row as
    corrected and not flagged, and the flags-remaining count leaves it out
    (only "Cash" remains); the Step 2 table still shows the same field with
    its flagged badge. *)
Theorem step2_keeps_flag_of_corrected_field :
  let s := addCorrection reviewed revenueFix in
  let step2Rows :=
    Step2Classify.buildTemplateRows plainIntl
      [mkTemplateSection None isTemplateFields] "Income Statement"
      (layer2Results s !! "income_statement") (corrections s) (selectedCell s) in
  let step3Rows :=
    Step3Finalize.buildRows plainIntl isTemplateFields bsTemplateFields None
      (layer2Results s) (corrections s) in
  (exists row, step2Rows !! 1 = Some row /\
     DataTable.label row = "Gross Revenue" /\
     DataTable.showsEditedBadge row = true /\
     DataTable.showsFlaggedBadge row = true) /\
  (exists row, step3Rows !! 1 = Some row /\
     Step3Finalize.label row = "Gross Revenue" /\
     Step3Finalize.showsCorrectedBadge row = true /\
     Step3Finalize.showsFlaggedBadge row = false) /\
  Step3Finalize.flaggedRemaining (layer2Results s) (corrections s) = 1.
Proof.
  cbv zeta. split_and!.
  - eexists. split; [reflexivity|]. split_and!; reflexivity.
  - eexists. split; [reflexivity|]. split_and!; reflexivity.
  - vm_compute. reflexivity.
Qed.

(** ** Removing a correction *)

Lemma filter_other_upsert c l :
  List.filter (fun x => negb (String.eqb (fieldName x) (fieldName c))) (upsert c l) =
  List.filter (fun x => negb (String.eqb (fieldName x) (fieldName c))) l.
Proof.
  induction l as [|x r IH]; simpl.
  - by rewrite String.eqb_refl.
  - destruct (sameField (fieldName c) x) eqn:Hx; unfold sameField in Hx; simpl.
    + by rewrite String.eqb_refl, Hx.
    + by rewrite Hx, IH.
Qed.

Lemma filter_other_absent name l :
  ~ In name (correctedNames l) ->
  List.filter (fun x => negb (String.eqb (fieldName x) name)) l = l.
Proof.
  induction l as [|x r IH]; simpl; [done|]. intros Hnin.
  destruct (String.eqb_spec (fieldName x) name) as [Heq|Hne]; simpl.
  - tauto.
  - rewrite IH; [done|tauto].
Qed.

Lemma find_filter_other name l :
  List.find (sameField name)
    (List.filter (fun x => negb (String.eqb (fieldName x) name)) l) = None.
Proof.
  induction l as [|x r IH]; simpl; [done|].
  destruct (String.eqb (fieldName x) name) eqn:Hx; simpl; [done|].
  unfold sameField at 1. by rewrite Hx.
Qed.

Lemma find_filter_other_ne name other l :
  other <> name ->
  List.find (sameField other)
    (List.filter (fun x => negb (String.eqb (fieldName x) name)) l) =
  List.find (sameField other) l.
Proof.
  intros Hne. induction l as [|x r IH]; simpl; [done|].
  destruct (String.eqb_spec (fieldName x) name) as [Heq|Hx]; simpl.
  - destruct (sameField other x) eqn:Ho; [|done].
    apply sameField_true in Ho. congruence.
  - by rewrite IH.
Qed.

Lemma names_filter_other name l :
  ~ In name (correctedNames (List.filter (fun x => negb (String.eqb (fieldName x) name)) l)).
Proof.
  unfold correctedNames. rewrite in_map_iff. intros (x & Hx & Hin).
  apply filter_In in Hin as [_ Hne]. rewrite <- Hx, String.eqb_refl in Hne. done.
Qed.

(** X1. Saving a correction for a field that had none and then removing it
    gives back the very state one started from; in general, removing the
    field's correction after saving one leaves what removing it straight
    away would have left. *)
Theorem removeCorrection_undoes_addCorrection (s : WizardState) (c : Correction) :
  ~ In (fieldName c) (map fieldName (corrections s)) ->
  removeCorrection (addCorrection s c) (fieldName c) = s /\
  forall s' : WizardState,
    removeCorrection (addCorrection s' c) (fieldName c) = removeCorrection s' (fieldName c).
Proof.
  intros Hnin.
  assert (forall s', removeCorrection (addCorrection s' c) (fieldName c)
                     = removeCorrection s' (fieldName c)) as Hgen.
  { intros s'. rewrite addCorrection_upsert. unfold removeCorrection. simpl.
    by rewrite filter_other_upsert. }
  split; [|exact Hgen].
  rewrite Hgen. unfold removeCorrection.
  rewrite filter_other_absent by done. apply set_corrections_same.
Qed.

Lemma removeCorrection_undoes_addCorrection_witness :
  removeCorrection (addCorrection reviewed revenueFix) "Gross Revenue" = reviewed.
Proof.
  apply (removeCorrection_undoes_addCorrection reviewed revenueFix).
  simpl. tauto.
Defined.

(** X2. [removeCorrection] removes the correction of the named field and
    nothing else: afterwards no correction is found under that name, the
    correction found under any other name is the one found before, every
    other component of the state is as it was, and removing again changes
    nothing. *)
Theorem removeCorrection_removes_only_that_field (s : WizardState) (name : string) :
  List.find (sameField name) (corrections (removeCorrection s name)) = None /\
  (forall other, other <> name ->
     List.find (sameField other) (corrections (removeCorrection s name)) =
     List.find (sameField other) (corrections s)) /\
  set_corrections (removeCorrection s name) (corrections s) = s /\
  removeCorrection (removeCorrection s name) name = removeCorrection s name.
Proof.
  unfold removeCorrection. simpl. split_and!.
  - apply find_filter_other.
  - intros other Hne. by apply find_filter_other_ne.
  - apply set_corrections_frame.
  - f_equal. apply filter_other_absent, names_filter_other.
Qed.

Lemma removeCorrection_removes_only_that_field_witness :
  List.find (sameField "Cash") (corrections (removeCorrection threeSaved "Cash")) = None /\
  List.find (sameField "Rent") (corrections (removeCorrection threeSaved "Cash"))
    = Some rentFix.
Proof.
  destruct (removeCorrection_removes_only_that_field threeSaved "Cash")
    as (Hgone & Hkept & _).
  split; [exact Hgone|].
  etransitivity; [apply (Hkept "Rent"); discriminate|reflexivity].
Defined.

(** X3. Removing a correction puts the field back to its classified value
    in both views: the Step 2 row is the row of the uncorrected field and is
    not marked edited, and the final maps of Step 3 hold the Layer 2 values
    at that field. *)
Theorem removeCorrection_reverts_to_classified (intl : Intl) (IS : list string)
  (tpl : option TemplateResponse) (layer2 : option Layer2Result)
  (s : WizardState) (name : string) :
  let cs := corrections (removeCorrection s name) in
  let fv := Step3Finalize.buildFinalValues IS tpl (layer2Results s) cs in
  Step2Classify.fieldRow intl layer2 cs name = Step2Classify.fieldRow intl layer2 [] name /\
  DataTable.isEdited (Step2Classify.fieldRow intl layer2 cs name) = Some false /\
  FinalValues.income_statement fv !! name
    = classifiedValues (layer2Results s) "income_statement" !! name /\
  FinalValues.balance_sheet fv !! name
    = classifiedValues (layer2Results s) "balance_sheet" !! name.
Proof.
  intros cs fv. subst cs fv.
  change (corrections (removeCorrection s name))
    with (List.filter (fun c => negb (String.eqb (fieldName c) name)) (corrections s)).
  set (cs := List.filter (fun c => negb (String.eqb (fieldName c) name)) (corrections s)).
  assert (Step2Classify.fieldRow intl layer2 cs name
          = Step2Classify.fieldRow intl layer2 [] name) as Hrow.
  { unfold Step2Classify.fieldRow, cs. by rewrite find_filter_other. }
  split_and!.
  - exact Hrow.
  - by rewrite Hrow.
  - unfold Step3Finalize.buildFinalValues. rewrite fold_applyCorrection_is.
    by rewrite lastCorrection_None by apply names_filter_other.
  - unfold Step3Finalize.buildFinalValues. rewrite fold_applyCorrection_bs.
    by rewrite lastCorrection_None by apply names_filter_other.
Qed.

(** ** Invariants of the wizard store *)

Lemma addCorrection_fields s c :
  currentStep (addCorrection s c) = currentStep s /\
  step1Approved (addCorrection s c) = step1Approved s /\
  step2Approved (addCorrection s c) = step2Approved s /\
  selectedCell (addCorrection s c) = selectedCell s /\
  sidePanelOpen (addCorrection s c) = sidePanelOpen s.
Proof. by rewrite addCorrection_upsert. Qed.

Lemma step_keeps_approval_invariant s a :
  (currentStep s = Step3 -> step2Approved s = true) /\
  (currentStep s = Step1 -> step1Approved s = false /\ step2Approved s = false) ->
  (currentStep (step s a) = Step3 -> step2Approved (step s a) = true) /\
  (currentStep (step s a) = Step1 ->
   step1Approved (step s a) = false /\ step2Approved (step s a) = false).
Proof.
  intros [H3 H1].
  destruct a; unfold step, resetWizard, loadMockStep2, removeCorrection; simpl;
    try (destruct (addCorrection_fields s correction) as (-> & -> & -> & _));
    intuition congruence.
Qed.

(** X4. Over every run of the store from the initial state, whatever the
    order of the operations: while the wizard is at step 3, step 2 is
    approved; and while it is at step 1, neither step is approved. *)
Theorem approvals_follow_the_current_step (trace : list Action) :
  let s := run trace defaultState in
  (currentStep s = Step3 -> step2Approved s = true) /\
  (currentStep s = Step1 -> step1Approved s = false /\ step2Approved s = false).
Proof.
  cbv zeta. unfold run.
  assert (forall s0,
            (currentStep s0 = Step3 -> step2Approved s0 = true) /\
            (currentStep s0 = Step1 ->
             step1Approved s0 = false /\ step2Approved s0 = false) ->
            (currentStep (fold_left step trace s0) = Step3 ->
             step2Approved (fold_left step trace s0) = true) /\
            (currentStep (fold_left step trace s0) = Step1 ->
             step1Approved (fold_left step trace s0) = false /\
             step2Approved (fold_left step trace s0) = false)) as Hrun.
  { induction trace as [|a tr IH]; intros s0 H0; simpl; [exact H0|].
    apply IH. by apply step_keeps_approval_invariant. }
  apply Hrun. simpl. split; [discriminate|done].
Qed.

(** Approving both steps, going back to step 1 and approving step 2 out of
    turn: the wizard is at step 3 and step 2 is approved. *)
Lemma approvals_follow_the_current_step_witness :
  currentStep (run [AApproveStep1; AApproveStep2; ABackToStep1; AApproveStep2]
                 defaultState) = Step3 /\
  step2Approved (run [AApproveStep1; AApproveStep2; ABackToStep1; AApproveStep2]
                   defaultState) = true.
Proof.
  split; [reflexivity|].
  apply (approvals_follow_the_current_step
           [AApproveStep1; AApproveStep2; ABackToStep1; AApproveStep2]).
  reflexivity.
Defined.

Lemma step_keeps_panel_invariant s a :
  (is_Some (selectedCell s) -> sidePanelOpen s = true) ->
  is_Some (selectedCell (step s a)) -> sidePanelOpen (step s a) = true.
Proof.
  intros H.
  destruct a; unfold step, resetWizard, loadMockStep2, removeCorrection; simpl;
    try (destruct (addCorrection_fields s correction) as (_ & _ & _ & -> & ->));
    try destruct cell; try destruct open; simpl;
    first [exact H | done | (intros [x Hx]; discriminate)].
Qed.

(** X5. Over every run of the store from the initial state, a selected
    cell comes with an open side panel. *)
Theorem selected_cell_has_open_panel (trace : list Action) (cell : string) :
  selectedCell (run trace defaultState) = Some cell ->
  sidePanelOpen (run trace defaultState) = true.
Proof.
  assert (forall s0,
            (is_Some (selectedCell s0) -> sidePanelOpen s0 = true) ->
            is_Some (selectedCell (fold_left step trace s0)) ->
            sidePanelOpen (fold_left step trace s0) = true) as Hrun.
  { induction trace as [|a tr IH]; intros s0 H0; simpl; [exact H0|].
    apply IH. by apply step_keeps_panel_invariant. }
  intros Hcell. apply Hrun; [|by exists cell].
  simpl. intros [x Hx]. discriminate.
Qed.

(** Opening the panel by hand, selecting a cell, approving step 2 and
    selecting a cell again on the finalize step: the panel follows. *)
Lemma selected_cell_has_open_panel_witness :
  sidePanelOpen
    (run [ASetSidePanelOpen true; ASetSelectedCell (Some "Cash"); AApproveStep2;
          ASetSelectedCell (Some "Rent")] defaultState) = true.
Proof.
  apply (selected_cell_has_open_panel
           [ASetSidePanelOpen true; ASetSelectedCell (Some "Cash"); AApproveStep2;
            ASetSelectedCell (Some "Rent")] "Rent").
  reflexivity.
Defined.

(** ** Step 3: order of the corrections, flags, and the rows of the table *)

Lemma FinalValues_eq (x y : FinalValues.t) :
  FinalValues.income_statement x = FinalValues.income_statement y ->
  FinalValues.balance_sheet x = FinalValues.balance_sheet y -> x = y.
Proof. destruct x, y. simpl. by intros -> ->. Qed.

Lemma lastCorrection_perm name cs cs' :
  List.NoDup (correctedNames cs) -> Permutation cs cs' ->
  lastCorrection name cs = lastCorrection name cs'.
Proof.
  intros Hnd Hperm.
  assert (List.NoDup (correctedNames cs')) as Hnd'.
  { eapply Permutation_NoDup; [|exact Hnd]. by apply Permutation_map. }
  destruct (lastCorrection name cs) as [c|] eqn:Hl.
  - unfold lastCorrection in Hl. apply find_some in Hl as [Hin Hc].
    apply sameField_true in Hc. subst name. symmetry.
    apply lastCorrection_unique; [done|].
    eapply Permutation_in; [exact Hperm|]. by apply in_rev.
  - symmetry. apply lastCorrection_None. intros Hin.
    unfold correctedNames in Hin. apply in_map_iff in Hin as (c & Hc & Hin).
    assert (In c cs) as Hin' by (eapply Permutation_in; [symmetry; exact Hperm|done]).
    subst name. by rewrite lastCorrection_unique in Hl.
Qed.

(** X6. The final values do not depend on the order in which the
    corrections were saved: two corrections lists that hold the same
    corrections, each field corrected once, give the same final maps. *)
Theorem buildFinalValues_order_independent (IS : list string)
  (tpl : option TemplateResponse) (l2 : gmap string Layer2Result)
  (cs cs' : list Correction) :
  List.NoDup (map fieldName cs) -> Permutation cs cs' ->
  Step3Finalize.buildFinalValues IS tpl l2 cs = Step3Finalize.buildFinalValues IS tpl l2 cs'.
Proof.
  intros Hnd Hperm. unfold Step3Finalize.buildFinalValues.
  apply FinalValues_eq; apply map_eq; intros f.
  - rewrite !fold_applyCorrection_is. by rewrite (lastCorrection_perm f cs cs').
  - rewrite !fold_applyCorrection_bs. by rewrite (lastCorrection_perm f cs cs').
Qed.

Lemma buildFinalValues_order_independent_witness :
  Step3Finalize.buildFinalValues isTemplateFields None (layer2Results reviewed)
    [revenueFix; cashFix] =
  Step3Finalize.buildFinalValues isTemplateFields None (layer2Results reviewed)
    [cashFix; revenueFix].
Proof.
  apply buildFinalValues_order_independent.
  - repeat (constructor; [simpl; intuition discriminate|]). constructor.
  - apply perm_swap.
Defined.

Lemma find_first_unique l c :
  List.NoDup (correctedNames l) -> In c l ->
  List.find (sameField (fieldName c)) l = Some c.
Proof.
  intros Hnd Hin.
  destruct (List.find (sameField (fieldName c)) l) as [c'|] eqn:Hf.
  - apply find_some in Hf as [Hin' Hc]. apply sameField_true in Hc.
    f_equal. by apply (NoDup_names_unique l).
  - eapply find_none in Hf; [|exact Hin]. by rewrite sameField_refl in Hf.
Qed.

Lemma find_None_names name l :
  List.find (sameField name) l = None -> ~ In name (correctedNames l).
Proof.
  intros Hf Hin. unfold correctedNames in Hin.
  apply in_map_iff in Hin as (c & Hc & Hin).
  eapply find_none in Hf; [|exact Hin].
  apply sameField_false in Hf. done.
Qed.

Lemma inherited_proto f : JsObject.inherited f = false -> f <> "__proto__".
Proof. by intros H ->. Qed.

(** The row Step 2 builds for a field of the income statement and the row
    Step 3 builds for it show the same value and the same mark. *)
Lemma fieldRows_agree_is intl IS tpl l2 cs field :
  List.NoDup (map fieldName cs) ->
  In field (flat_map fields (Step3Finalize.isSections IS tpl)) ->
  field <> "__proto__" ->
  let row2 := Step2Classify.fieldRow intl (l2 !! "income_statement") cs field in
  let row3 :=
    Step3Finalize.fieldRow intl l2 cs
      (FinalValues.income_statement (Step3Finalize.buildFinalValues IS tpl l2 cs))
      field in
  DataTable.value row2 = Step3Finalize.value row3 /\
  DataTable.isEdited row2 = Step3Finalize.corrected row3.
Proof.
  intros Hnd Hfield Hproto. cbv zeta.
  unfold Step3Finalize.buildFinalValues, Step3Finalize.isLayer2.
  unfold Step2Classify.fieldRow, Step3Finalize.fieldRow. simpl.
  rewrite fold_applyCorrection_is. simpl.
  apply isFieldNames_In in Hfield. rewrite (bool_decide_true _ Hfield).
  rewrite (reachesSetter_other _ _ Hproto).
  destruct (List.find (sameField field) cs) as [c|] eqn:Hf.
  - apply find_some in Hf as [Hin Hc]. apply sameField_true in Hc. subst field.
    rewrite lastCorrection_unique by done.
    rewrite bool_decide_true; [done|].
    apply elem_of_correctedFieldNames. by apply in_map.
  - apply find_None_names in Hf.
    rewrite lastCorrection_None by done.
    rewrite bool_decide_false by (by rewrite elem_of_correctedFieldNames).
    destruct (l2 !! "income_statement") as [l|]; simpl.
    + by destruct (L2.values l !! field) as [[v|]|].
    + by rewrite lookup_empty.
Qed.

Lemma fieldRows_agree_bs intl IS tpl l2 cs field :
  List.NoDup (map fieldName cs) ->
  ~ In field (flat_map fields (Step3Finalize.isSections IS tpl)) ->
  field <> "__proto__" ->
  let row2 := Step2Classify.fieldRow intl (l2 !! "balance_sheet") cs field in
  let row3 :=
    Step3Finalize.fieldRow intl l2 cs
      (FinalValues.balance_sheet (Step3Finalize.buildFinalValues IS tpl l2 cs))
      field in
  DataTable.value row2 = Step3Finalize.value row3 /\
  DataTable.isEdited row2 = Step3Finalize.corrected row3.
Proof.
  intros Hnd Hfield Hproto. cbv zeta.
  unfold Step3Finalize.buildFinalValues, Step3Finalize.bsLayer2.
  unfold Step2Classify.fieldRow, Step3Finalize.fieldRow. simpl.
  rewrite fold_applyCorrection_bs. simpl.
  rewrite <- isFieldNames_In in Hfield. rewrite (bool_decide_false _ Hfield).
  rewrite (reachesSetter_other _ _ Hproto).
  destruct (List.find (sameField field) cs) as [c|] eqn:Hf.
  - apply find_some in Hf as [Hin Hc]. apply sameField_true in Hc. subst field.
    rewrite lastCorrection_unique by done.
    rewrite bool_decide_true; [done|].
    apply elem_of_correctedFieldNames. by apply in_map.
  - apply find_None_names in Hf.
    rewrite lastCorrection_None by done.
    rewrite bool_decide_false by (by rewrite elem_of_correctedFieldNames).
    destruct (l2 !! "balance_sheet") as [l|]; simpl.
    + by destruct (L2.values l !! field) as [[v|]|].
    + by rewrite lookup_empty.
Qed.

Lemma Forall2_flat_map {A B C} (R : B -> C -> Prop)
  (f : A -> list B) (g : A -> list C) (l : list A) :
  (forall x, In x l -> Forall2 R (f x) (g x)) ->
  Forall2 R (flat_map f l) (flat_map g l).
Proof.
  induction l as [|x r IH]; intros H; simpl; [constructor|].
  apply Forall2_app; [apply H; by left|]. apply IH. intros y Hy. apply H. by right.
Qed.

Lemma Forall2_map_both {A B C} (R : B -> C -> Prop)
  (f : A -> B) (g : A -> C) (l : list A) :
  (forall x, In x l -> R (f x) (g x)) -> Forall2 R (map f l) (map g l).
Proof.
  induction l as [|x r IH]; intros H; simpl; constructor.
  - apply H. by left.
  - apply IH. intros y Hy. apply H. by right.
Qed.

(** X7. The tables of Step 2 and Step 3 line up row by row. With the same
    template in both steps, the rows of Step 2's centre table and the rows
    [buildRows] returns in Step 3 are as many, carry the same labels in the
    same order, and a header stands against a header of the same kind. A
    value row of Step 3 stands against a row of Step 2 that shows the same
    value and is marked edited exactly when the Step 3 row is marked
    corrected. The one row on which the two steps differ is the balance
    sheet's "Check": Step 3 shows the balance check there, Step 2 a
    clickable value row. Each field is corrected at most once, no
    balance-sheet field is also an income-statement field, and no template
    field is called like a member of [Object.prototype]. *)
Theorem step2_and_step3_rows_agree (intl : Intl) (IS BS : list string)
  (tpl : option TemplateResponse) (s : WizardState) :
  let isFields := flat_map fields (Step3Finalize.isSections IS tpl) in
  let bsFields := flat_map fields (Step3Finalize.bsSections BS tpl) in
  List.NoDup (map fieldName (corrections s)) ->
  (forall f, In f bsFields -> ~ In f isFields) ->
  Forall (fun f => JsObject.inherited f = false) (isFields ++ bsFields)%list ->
  Forall2
    (fun row2 row3 =>
       DataTable.label row2 = Step3Finalize.label row3 /\
       match Step3Finalize.rowShape row3 with
       | Step3Finalize.StatementHeaderRow =>
           DataTable.rowShape row2 = DataTable.StatementHeaderRow
       | Step3Finalize.HeaderRow =>
           DataTable.rowShape row2 = DataTable.HeaderRow
       | Step3Finalize.BalanceCheckRow =>
           DataTable.clickTarget row2 = Some "Check"
       | Step3Finalize.FieldRow =>
           DataTable.rowShape row2 = DataTable.FieldRow /\
           DataTable.value row2 = Step3Finalize.value row3 /\
           DataTable.isEdited row2 = Step3Finalize.corrected row3
       end)
    (Step2Classify.templateRows intl IS BS tpl s)
    (Step3Finalize.buildRows intl IS BS tpl (layer2Results s) (corrections s)).
Proof.
  intros isFields bsFields Hnd Hdisjoint Hplain. subst isFields bsFields.
  rewrite Forall_app, !Forall_forall in Hplain. destruct Hplain as [Hplain_is Hplain_bs].
  assert (forall section,
            Forall2
              (fun row2 row3 =>
                 DataTable.label row2 = Step3Finalize.label row3 /\
                 match Step3Finalize.rowShape row3 with
                 | Step3Finalize.StatementHeaderRow =>
                     DataTable.rowShape row2 = DataTable.StatementHeaderRow
                 | Step3Finalize.HeaderRow =>
                     DataTable.rowShape row2 = DataTable.HeaderRow
                 | Step3Finalize.BalanceCheckRow =>
                     DataTable.clickTarget row2 = Some "Check"
                 | Step3Finalize.FieldRow =>
                     DataTable.rowShape row2 = DataTable.FieldRow /\
                     DataTable.value row2 = Step3Finalize.value row3 /\
                     DataTable.isEdited row2 = Step3Finalize.corrected row3
                 end)
              (match header section with
               | Some h => if JsString.truthy h then [Step2Classify.headerRow h] else []
               | None => []
               end)
              (Step3Finalize.sectionHeader section)) as Hheader.
  { intros section. unfold Step3Finalize.sectionHeader.
    destruct (header section) as [h|]; [|constructor].
    destruct (JsString.truthy h); constructor; [done|constructor]. }
  unfold Step2Classify.templateRows, Step2Classify.buildTemplateRows,
    Step3Finalize.buildRows.
  apply Forall2_app; (constructor; [done|]); apply Forall2_flat_map;
    intros section Hsection; (apply Forall2_app; [apply Hheader|]);
    apply Forall2_map_both; intros field Hfield.
  - assert (In field (flat_map fields (Step3Finalize.isSections IS tpl))) as Hin.
    { apply in_flat_map. by exists section. }
    destruct (fieldRows_agree_is intl IS tpl (layer2Results s) (corrections s) field)
      as [Hvalue Hmark]; [done|done|by apply inherited_proto, Hplain_is, list_elem_of_In|].
    split; [done|]. by split_and!.
  - assert (In field (flat_map fields (Step3Finalize.bsSections BS tpl))) as Hin.
    { apply in_flat_map. by exists section. }
    destruct (String.eqb_spec field "Check") as [->|Hne]; [done|].
    destruct (fieldRows_agree_bs intl IS tpl (layer2Results s) (corrections s) field)
      as [Hvalue Hmark];
      [done|by apply Hdisjoint|by apply inherited_proto, Hplain_bs, list_elem_of_In|].
    split; [done|]. by split_and!.
Qed.

(** On the reviewed statements with "Gross Revenue" and "Check" corrected,
    the second rows of the two tables both show the corrected revenue, and
    against the last row of Step 3, the balance check, Step 2 has the
    clickable row of "Check". *)
Lemma step2_and_step3_rows_agree_witness :
  exists row2 row3 check2 check3,
    Step2Classify.templateRows plainIntl isTemplateFields bsTemplateFields None
      (set_corrections reviewed [revenueFix; checkFix]) !! 1 = Some row2 /\
    Step3Finalize.buildRows plainIntl isTemplateFields bsTemplateFields None
      (layer2Results reviewed) [revenueFix; checkFix] !! 1 = Some row3 /\
    Step2Classify.templateRows plainIntl isTemplateFields bsTemplateFields None
      (set_corrections reviewed [revenueFix; checkFix]) !! 8 = Some check2 /\
    Step3Finalize.buildRows plainIntl isTemplateFields bsTemplateFields None
      (layer2Results reviewed) [revenueFix; checkFix] !! 8 = Some check3 /\
    DataTable.value row2 = Step3Finalize.value row3 /\
    Step3Finalize.rowShape check3 = Step3Finalize.BalanceCheckRow /\
    DataTable.clickTarget check2 = Some "Check".
Proof.
  assert (Forall2
            (fun row2 row3 =>
               DataTable.label row2 = Step3Finalize.label row3 /\
               match Step3Finalize.rowShape row3 with
               | Step3Finalize.StatementHeaderRow =>
                   DataTable.rowShape row2 = DataTable.StatementHeaderRow
               | Step3Finalize.HeaderRow =>
                   DataTable.rowShape row2 = DataTable.HeaderRow
               | Step3Finalize.BalanceCheckRow =>
                   DataTable.clickTarget row2 = Some "Check"
               | Step3Finalize.FieldRow =>
                   DataTable.rowShape row2 = DataTable.FieldRow /\
                   DataTable.value row2 = Step3Finalize.value row3 /\
                   DataTable.isEdited row2 = Step3Finalize.corrected row3
               end)
            (Step2Classify.templateRows plainIntl isTemplateFields bsTemplateFields None
               (set_corrections reviewed [revenueFix; checkFix]))
            (Step3Finalize.buildRows plainIntl isTemplateFields bsTemplateFields None
               (layer2Results reviewed) [revenueFix; checkFix])) as Hrows.
  { apply (step2_and_step3_rows_agree plainIntl isTemplateFields bsTemplateFields None
             (set_corrections reviewed [revenueFix; checkFix])).
    - repeat (constructor; [simpl; intuition discriminate|]). constructor.
    - simpl. intros f Hbs His. intuition (subst; discriminate).
    - repeat constructor. }
  eexists _, _, _, _.
  split; [reflexivity|]. split; [reflexivity|].
  split; [reflexivity|]. split; [reflexivity|].
  split_and!.
  - eapply (Forall2_lookup_lr _ _ _ 1) in Hrows; [|reflexivity|reflexivity].
    apply Hrows.
  - reflexivity.
  - eapply (Forall2_lookup_lr _ _ _ 8) in Hrows; [|reflexivity|reflexivity].
    apply Hrows.
Defined.

Lemma elem_of_allFlaggedFields l2 f :
  f ∈ Step3Finalize.allFlaggedFields l2 <->
  In f (classifiedFlags l2 "income_statement") \/ In f (classifiedFlags l2 "balance_sheet").
Proof.
  unfold Step3Finalize.allFlaggedFields, classifiedFlags,
    Step3Finalize.isLayer2, Step3Finalize.bsLayer2.
  rewrite elem_of_list_to_set, list_elem_of_In. apply in_app_iff.
Qed.

(** X8. The flags-remaining count of Step 3 is zero exactly when every
    field Layer 2 flagged, in either statement, has a correction. *)
Theorem flaggedRemaining_zero_iff_all_flags_corrected
  (l2 : gmap string Layer2Result) (cs : list Correction) :
  Step3Finalize.flaggedRemaining l2 cs = 0 <->
  forall f,
    In f (classifiedFlags l2 "income_statement") \/
    In f (classifiedFlags l2 "balance_sheet") ->
    In f (map fieldName cs).
Proof.
  unfold Step3Finalize.flaggedRemaining. rewrite length_zero_iff_nil. split.
  - intros Hnil f Hf.
    destruct (in_dec string_dec f (map fieldName cs)) as [Hin|Hnin]; [done|].
    exfalso.
    assert (In f []) as Hbad; [|done].
    rewrite <- Hnil. apply step3_flaggedRemaining_counts_uncorrected.
    split; [by apply elem_of_allFlaggedFields|done].
  - intros Hall.
    destruct (List.filter _ _) as [|f rest] eqn:Hfilter; [done|].
    exfalso.
    assert (In f (f :: rest)) as Hin by (by left).
    rewrite <- Hfilter in Hin.
    apply step3_flaggedRemaining_counts_uncorrected in Hin as [Hflag Hnin].
    apply Hnin, Hall. by apply elem_of_allFlaggedFields.
Qed.

(** On the reviewed statements "Gross Revenue" and "Cash" are flagged:
    correcting both brings the count to zero. *)
Lemma flaggedRemaining_zero_iff_all_flags_corrected_witness :
  Step3Finalize.flaggedRemaining (layer2Results reviewed) [revenueFix; cashFix] = 0.
Proof.
  apply flaggedRemaining_zero_iff_all_flags_corrected.
  intros f [Hf|Hf]; vm_compute in Hf |- *; tauto.
Defined.

(** The second row of the table, the corrected "Gross Revenue" that Layer 2
    had flagged, and its last row, the balance check standing for the
    corrected "Check". *)
Lemma step3_corrected_field_not_flagged_witness :
  exists revenueRow checkRow,
    Step3Finalize.buildRows plainIntl isTemplateFields bsTemplateFields None
      (layer2Results reviewed) [revenueFix; checkFix] !! 1 = Some revenueRow /\
    Step3Finalize.buildRows plainIntl isTemplateFields bsTemplateFields None
      (layer2Results reviewed) [revenueFix; checkFix] !! 8 = Some checkRow /\
    Step3Finalize.label revenueRow = "Gross Revenue" /\
    Step3Finalize.showsFlaggedBadge revenueRow = false /\
    Step3Finalize.showsCorrectedBadge revenueRow = true /\
    Step3Finalize.label checkRow = "Check" /\
    Step3Finalize.showsCorrectedBadge checkRow = false.
Proof.
  pose proof (step3_corrected_field_not_flagged plainIntl isTemplateFields
                bsTemplateFields None (layer2Results reviewed)
                [revenueFix; checkFix]) as H.
  eexists _, _. split; [reflexivity|]. split; [reflexivity|].
  split; [reflexivity|].
  match goal with
  | |- Step3Finalize.showsFlaggedBadge ?r = false /\ _ =>
      destruct (H r) as (Hflag & Hvalue & _);
        [simpl; tauto|simpl; tauto|];
      destruct Hvalue as (_ & _ & Hbadge); [reflexivity|]
  end.
  split; [exact Hflag|]. split; [exact Hbadge|].
  match goal with
  | |- Step3Finalize.label ?r = "Check" /\ _ =>
      destruct (H r) as (_ & _ & Hcheck); [simpl; tauto|simpl; tauto|];
      apply Hcheck; reflexivity
  end.
Defined.

Lemma filter_map_fieldRows {A} (f : A -> Step3Finalize.TableRow) (l : list A) :
  (forall x, isTemplateFieldRow (f x) = true) ->
  List.filter isTemplateFieldRow (map f l) = map f l.
Proof.
  intros H. induction l as [|x r IH]; simpl; [done|]. by rewrite H, IH.
Qed.

Lemma isTemplateFieldRow_sectionHeader section :
  List.filter isTemplateFieldRow (Step3Finalize.sectionHeader section) = [].
Proof.
  unfold Step3Finalize.sectionHeader.
  destruct (header section) as [h|]; [|done].
  by destruct (JsString.truthy h).
Qed.

Lemma filter_flat_map {A B} (p : B -> bool) (f : A -> list B) (l : list A) :
  List.filter p (flat_map f l) = flat_map (fun x => List.filter p (f x)) l.
Proof.
  induction l as [|x r IH]; simpl; [done|].
  by rewrite List.filter_app, IH.
Qed.

Lemma map_flat_map {A B C} (g : B -> C) (f : A -> list B) (l : list A) :
  map g (flat_map f l) = flat_map (fun x => map g (f x)) l.
Proof.
  induction l as [|x r IH]; simpl; [done|].
  by rewrite map_app, IH.
Qed.

Lemma flat_map_ext' {A B} (f g : A -> list B) (l : list A) :
  (forall x, f x = g x) -> flat_map f l = flat_map g l.
Proof. intros H. induction l as [|x r IH]; simpl; [done|]. by rewrite H, IH. Qed.

(** X9. The Step 3 table lists every template field once and in template
    order: leaving the statement and section headers aside, the labels of
    its rows are the fields of the income-statement sections followed by the
    fields of the balance-sheet sections (the "Check" field standing as the
    balance-check row). *)
Theorem buildRows_lists_the_template_fields (intl : Intl) (IS BS : list string)
  (tpl : option TemplateResponse) (l2 : gmap string Layer2Result)
  (cs : list Correction) :
  map Step3Finalize.label
    (List.filter isTemplateFieldRow
       (Step3Finalize.buildRows intl IS BS tpl l2 cs)) =
  (flat_map fields (Step3Finalize.isSections IS tpl) ++
   flat_map fields (Step3Finalize.bsSections BS tpl))%list.
Proof.
  unfold Step3Finalize.buildRows.
  rewrite List.filter_app. simpl. rewrite map_app. f_equal.
  - rewrite filter_flat_map, map_flat_map. apply flat_map_ext'. intros section.
    rewrite List.filter_app, isTemplateFieldRow_sectionHeader. simpl.
    rewrite filter_map_fieldRows by done.
    rewrite map_map. simpl. apply map_id.
  - rewrite filter_flat_map, map_flat_map. apply flat_map_ext'. intros section.
    rewrite List.filter_app, isTemplateFieldRow_sectionHeader. simpl.
    rewrite filter_map_fieldRows.
    + rewrite map_map. rewrite <- (map_id (fields section)) at 2.
      apply map_ext. intros field.
      destruct (String.eqb_spec field "Check") as [->|Hne]; done.
    + intros field. by destruct (String.eqb field "Check").
Qed.

(** ** Step 2: the rows of the template table *)

Lemma omap_cons' {A B} (f : A -> option B) (x : A) (l : list A) :
  omap f (x :: l) = match f x with Some y => y :: omap f l | None => omap f l end.
Proof. done. Qed.

Lemma omap_flat_map {A B C} (g : B -> option C) (f : A -> list B) (l : list A) :
  omap g (flat_map f l) = flat_map (fun x => omap g (f x)) l.
Proof.
  induction l as [|x r IH]; simpl; [done|].
  by rewrite omap_app, IH.
Qed.

(** X10. In the Step 2 table a click selects a template field and nothing
    else: going through the rows of [buildTemplateRows], the labels that a
    click passes on are exactly the fields of the sections, once each and in
    order; the statement header and the section headers pass nothing. *)
Theorem buildTemplateRows_click_targets (intl : Intl)
  (sections : list TemplateSection) (statementLabel : string)
  (layer2 : option Layer2Result) (cs : list Correction)
  (selected : option string) :
  omap DataTable.clickTarget
    (Step2Classify.buildTemplateRows intl sections statementLabel layer2 cs selected)
  = flat_map fields sections.
Proof.
  unfold Step2Classify.buildTemplateRows. rewrite omap_cons'.
  change (DataTable.clickTarget (Step2Classify.statementHeaderRow statementLabel))
    with (@None string).
  rewrite omap_flat_map. apply flat_map_ext'. intros section.
  rewrite omap_app.
  assert (omap DataTable.clickTarget
            (match header section with
             | Some h => if JsString.truthy h then [Step2Classify.headerRow h] else []
             | None => []
             end) = []) as ->.
  { destruct (header section) as [h|]; [|done]. by destruct (JsString.truthy h). }
  simpl. induction (fields section) as [|field r IH]; [done|].
  rewrite map_cons, omap_cons'.
  change (DataTable.clickTarget (Step2Classify.fieldRow intl layer2 cs field))
    with (Some field).
  by rewrite IH.
Qed.

(** ** Validation failures in the table and in the side panel *)

Lemma truthy_true_iff s : JsString.truthy s = true <-> s <> "".
Proof. destruct s; simpl; split; congruence. Qed.

Lemma existsb_omap {A B} (g : A -> option B) (p : B -> bool) (l : list A) :
  existsb p (omap g l) =
  existsb (fun x => match g x with Some y => p y | None => false end) l.
Proof.
  induction l as [|x r IH]; [done|].
  rewrite omap_cons'. simpl. destruct (g x); simpl; by rewrite IH.
Qed.

Lemma existsb_ext' {A} (p q : A -> bool) (l : list A) :
  (forall x, p x = q x) -> existsb p l = existsb q l.
Proof. intros H. induction l as [|x r IH]; simpl; [done|]. by rewrite H, IH. Qed.

Lemma existsb_filter_length {A} (p : A -> bool) (l : list A) :
  existsb p l = true <-> 0 < length (List.filter p l).
Proof.
  induction l as [|x r IH]; simpl; [split; [discriminate|lia]|].
  destruct (p x); simpl; [split; [lia|done]|exact IH].
Qed.

(** The checks the panel counts as failed are those the row counts. *)
Lemma panel_checks_of_names (l : Layer2Result) (names : list string) :
  let checks :=
    List.filter
      (fun pair : string * JsObject.Read ValidationCheck =>
         match snd pair with JsObject.Undefined => false | _ => true end)
      (map (fun name => (name, SidePanel.checkNamed (Some l) name)) names) in
  existsb (fun pair => SidePanel.isFail (snd pair)) checks =
  existsb
    (fun checkName =>
       match JsObject.get (L2.validation l) checkName with
       | JsObject.Own chk => match status chk with FAIL => true | PASS => false end
       | _ => false
       end)
    names.
Proof.
  cbv zeta. induction names as [|name r IH]; [done|].
  cbn [map List.filter snd existsb]. rewrite <- IH.
  set (tail := List.filter _ (map _ r)).
  unfold SidePanel.checkNamed, JsObject.get.
  destruct (L2.validation l !! name) as [chk|]; [done|].
  by destruct (JsObject.inherited name).
Qed.

(** Reading a check by its name, the row's way and the map's way. *)
Lemma row_checks_of_names (l : Layer2Result) (names : list string) :
  existsb
    (fun checkName =>
       match JsObject.get (L2.validation l) checkName with
       | JsObject.Own chk => match status chk with FAIL => true | PASS => false end
       | _ => false
       end)
    names =
  existsb
    (fun checkName =>
       match L2.validation l !! checkName with
       | Some chk => match status chk with FAIL => true | PASS => false end
       | None => false
       end)
    names.
Proof.
  apply existsb_ext'. intros name. unfold JsObject.get.
  destruct (L2.validation l !! name) as [chk|]; [done|].
  by destruct (JsObject.inherited name).
Qed.

(** X11. The warning sign of a Step 2 row and the side panel agree. For a
    field with a name, computing the row's validation failure and computing
    the panel's for the same field and classification result end alike:
    with the same answer, or both with a [TypeError]. When there is an
    answer, it is the mark the row carries, and it is positive exactly when
    the panel's count of failed checks is positive. The computation throws
    exactly for a field called like a member of [Object.prototype] under
    which the classification result stores no checks: both read the
    inherited member where they expect the list of check names. *)
Theorem validation_warning_matches_panel (intl : Intl)
  (layer2 : option Layer2Result) (cs : list Correction) (field : string) :
  field <> "" ->
  Step2Classify.fieldChecksFail layer2 field = SidePanel.hasFailure (Some field) layer2 /\
  (forall fails : bool,
     SidePanel.hasFailure (Some field) layer2 = Some fails ->
     DataTable.hasValidationFail (Step2Classify.fieldRow intl layer2 cs field)
       = Some fails /\
     exists count : nat,
       SidePanel.failCount (Some field) layer2 = Some count /\
       (fails = true <-> 0 < count)) /\
  (SidePanel.hasFailure (Some field) layer2 = None <->
   exists l, layer2 = Some l /\
             JsObject.get (L2.fieldValidations l) field = JsObject.Inherited).
Proof.
  intros Hne. apply truthy_true_iff in Hne.
  unfold Step2Classify.fieldChecksFail, Step2Classify.fieldChecks,
    SidePanel.hasFailure, SidePanel.failCount, SidePanel.relevantChecks,
    SidePanel.relevantCheckNames, Step2Classify.fieldRow.
  destruct layer2 as [l|]; simpl.
  - rewrite Hne.
    assert (JsObject.get (L2.fieldValidations l) field =
            match L2.fieldValidations l !! field with
            | Some names => JsObject.Own names
            | None => if JsObject.inherited field
                      then JsObject.Inherited else JsObject.Undefined
            end) as Hget by done.
    rewrite !Hget. clear Hget.
    destruct (L2.fieldValidations l !! field) as [names|] eqn:Hnames; simpl.
    + split_and!.
      * f_equal. symmetry. apply panel_checks_of_names.
      * intros fails [= <-]. split.
        -- f_equal. rewrite <- row_checks_of_names. symmetry.
           apply panel_checks_of_names.
        -- eexists. split; [reflexivity|]. apply existsb_filter_length.
      * split; [discriminate|]. intros (l' & [= <-] & Hread).
        unfold JsObject.get in Hread. by rewrite Hnames in Hread.
    + destruct (JsObject.inherited field) eqn:Hin; simpl.
      * split_and!; [done|discriminate|].
        split; [|done]. intros _. exists l. split; [done|].
        unfold JsObject.get. by rewrite Hnames, Hin.
      * split_and!; [done| |].
        -- intros fails [= <-]. split; [done|].
           exists 0. split; [done|]. split; [discriminate|lia].
        -- split; [discriminate|]. intros (l' & [= <-] & Hread).
           unfold JsObject.get in Hread. by rewrite Hnames, Hin in Hread.
  - split_and!; [done| |].
    + intros fails [= <-]. split; [done|].
      exists 0. split; [done|]. split; [discriminate|lia].
    + split; [discriminate|]. by intros (l' & ? & _).
Qed.

(** On the result in which "Gross Revenue" is covered by two checks, one of
    them failed, the row carries the warning and the panel counts one
    failure. *)
Lemma validation_warning_matches_panel_witness :
  DataTable.hasValidationFail
    (Step2Classify.fieldRow plainIntl (Some isChecked) [] "Gross Revenue") = Some true /\
  SidePanel.hasFailure (Some "Gross Revenue") (Some isChecked) = Some true /\
  SidePanel.failCount (Some "Gross Revenue") (Some isChecked) = Some 1.
Proof.
  destruct (validation_warning_matches_panel plainIntl (Some isChecked) []
              "Gross Revenue") as (_ & Hrow & _); [discriminate|].
  destruct (Hrow true) as [Hmark _]; [reflexivity|].
  split; [exact Hmark|]. split; reflexivity.
Defined.

(** The row and the panel of a field called [constructor], for which the
    classification result stores no checks. *)
Example row_and_panel_throw_on_constructor :
  Step2Classify.fieldChecksFail (Some isChecked) "constructor" = None /\
  SidePanel.hasFailure (Some "constructor") (Some isChecked) = None.
Proof. split; reflexivity. Qed.

(** ** Approving step 2: the items sent for processing *)

Lemma existsb_eqb_iff f l : existsb (String.eqb f) l = true <-> In f l.
Proof.
  rewrite existsb_exists. split.
  - intros (x & Hin & Heq). apply String.eqb_eq in Heq. by subst.
  - intros Hin. exists f. split; [done|apply String.eqb_refl].
Qed.

(** X12. [handleApproveStep2] always moves the store on to step 3; it
    posts nothing when there is no correction, and otherwise one item per
    correction, in order, with the correction's field and corrected value.
    When the template's [allFields] of the income statement are the fields
    of its sections (as they are while the template is not loaded), the
    statement type of an item is the statement whose final map
    [buildFinalValues] writes the correction to. *)
Theorem handleApproveStep2_items (IS : list string) (tpl : option TemplateResponse)
  (s : WizardState) :
  (forall f, In f (Step2Classify.isAllFields IS tpl) <->
             In f (flat_map fields (Step3Finalize.isSections IS tpl))) ->
  let items := fst (Step2Classify.handleApproveStep2 IS tpl s) in
  snd (Step2Classify.handleApproveStep2 IS tpl s) = approveStep2 s /\
  (items = None <-> corrections s = []) /\
  (forall l, items = Some l ->
     map Step2Classify.CorrectionProcessItem.field_name l = map fieldName (corrections s) /\
     map Step2Classify.CorrectionProcessItem.corrected_value l
       = map correctedValue (corrections s)) /\
  (forall c,
     Step2Classify.CorrectionProcessItem.statement_type
       (Step2Classify.processItem (Step2Classify.isAllFields IS tpl) (layer2Results s) c)
     = if bool_decide (fieldName c ∈ Step3Finalize.isFieldNames IS tpl)
       then "income_statement" else "balance_sheet").
Proof.
  intros Hsame items. subst items. unfold Step2Classify.handleApproveStep2. simpl.
  split_and!.
  - done.
  - destruct (corrections s); split; congruence.
  - intros l Hl. destruct (corrections s) as [|c r] eqn:Hcs; [discriminate|].
    injection Hl as <-. simpl. split; f_equal; rewrite map_map; by apply map_ext.
  - intros c. unfold Step2Classify.processItem. simpl.
    destruct (existsb (String.eqb (fieldName c)) (Step2Classify.isAllFields IS tpl)) eqn:He.
    + apply existsb_eqb_iff, Hsame, isFieldNames_In in He.
      by rewrite bool_decide_true.
    + rewrite bool_decide_false; [done|].
      intros Hin. apply isFieldNames_In, Hsame, existsb_eqb_iff in Hin. congruence.
Qed.

Lemma handleApproveStep2_items_witness :
  map Step2Classify.CorrectionProcessItem.statement_type
    (map (Step2Classify.processItem (Step2Classify.isAllFields isTemplateFields None)
            (layer2Results threeSaved))
       (corrections threeSaved))
  = ["income_statement"; "balance_sheet"; "income_statement"] /\
  currentStep (snd (Step2Classify.handleApproveStep2 isTemplateFields None threeSaved))
  = Step3.
Proof.
  assert (forall f, In f (Step2Classify.isAllFields isTemplateFields None) <->
                    In f (flat_map fields (Step3Finalize.isSections isTemplateFields None)))
    as Hsame.
  { intros f. simpl. rewrite ?app_nil_r. done. }
  destruct (handleApproveStep2_items isTemplateFields None threeSaved Hsame)
    as (Hstore & _ & _ & Htype).
  split.
  - change (corrections threeSaved) with [revenueFix; cashFix; rentFix].
    cbn [map]. rewrite !Htype. reflexivity.
  - rewrite Hstore. reflexivity.
Defined.

(** ** Step 2: which sheets are classified *)

Lemma find_all_false {A} (p : A -> bool) (l : list A) :
  (forall x, In x l -> p x = false) -> List.find p l = None.
Proof.
  induction l as [|x r IH]; simpl; [done|]. intros H.
  rewrite (H x) by (by left). apply IH. intros y Hy. apply H. by right.
Qed.

Lemma differsFrom_false isSheet s :
  Step2Classify.differsFrom isSheet s = false <-> isSheet = Some s.
Proof.
  unfold Step2Classify.differsFrom. destruct isSheet as [i|]; [|split; discriminate].
  rewrite negb_false_iff, String.eqb_eq. split; congruence.
Qed.

(** X13. [findIsBsSheets] looks at the sheet names only. The
    income-statement sheet, when there is one, is a sheet whose name matches
    an income-statement pattern; the balance-sheet sheet, when there is one,
    is a sheet of the workbook other than the income-statement sheet, and
    there is one unless every sheet is the income-statement sheet. When no
    name matches an income-statement pattern, no income-statement sheet is
    found and the first sheet is taken as the balance sheet. *)
Theorem findIsBsSheets_picks_two_different_sheets (sheetNames : list string) :
  let isSheet := fst (Step2Classify.findIsBsSheets sheetNames) in
  let bsSheet := snd (Step2Classify.findIsBsSheets sheetNames) in
  (forall i, isSheet = Some i ->
     In i sheetNames /\ Step2Classify.matchesIncomeStatement i = true) /\
  (forall b, bsSheet = Some b -> In b sheetNames /\ isSheet <> Some b) /\
  (bsSheet = None <-> forall s, In s sheetNames -> isSheet = Some s) /\
  ((forall s, In s sheetNames -> Step2Classify.matchesIncomeStatement s = false) ->
   isSheet = None /\ bsSheet = head sheetNames).
Proof.
  cbv zeta. unfold Step2Classify.findIsBsSheets. simpl.
  set (isSheet := List.find
                    (fun s => Step2Classify.isIncomeStatement
                                (Step2Classify.detectSheetType s)) sheetNames).
  assert (forall s, Step2Classify.isIncomeStatement (Step2Classify.detectSheetType s)
                    = Step2Classify.matchesIncomeStatement s) as Hdetect.
  { intros s. unfold Step2Classify.detectSheetType.
    by destruct (Step2Classify.matchesIncomeStatement s). }
  split_and!.
  - intros i Hi. apply find_some in Hi as [Hin Hp]. by rewrite Hdetect in Hp.
  - intros b Hb.
    destruct (List.find (fun s => Step2Classify.differsFrom isSheet s && _) sheetNames)
      as [b'|] eqn:Hfirst.
    + injection Hb as ->. apply find_some in Hfirst as [Hin Hp].
      apply andb_true_iff in Hp as [Hd _]. split; [done|].
      intros Heq. apply differsFrom_false in Heq. congruence.
    + apply find_some in Hb as [Hin Hd]. split; [done|].
      intros Heq. apply differsFrom_false in Heq. congruence.
  - split.
    + intros Hnone s Hin.
      destruct (List.find (fun s => Step2Classify.differsFrom isSheet s && _) sheetNames)
        as [b'|] eqn:Hfirst; [discriminate|].
      eapply find_none in Hnone; [|exact Hin]. by apply differsFrom_false.
    + intros Hall.
      rewrite find_all_false.
      * apply find_all_false. intros s Hin. by apply differsFrom_false, Hall.
      * intros s Hin. rewrite (proj2 (differsFrom_false isSheet s)); [done|by apply Hall].
  - intros Hno.
    assert (isSheet = None) as Hnone.
    { apply find_all_false. intros s Hin. rewrite Hdetect. by apply Hno. }
    split; [done|]. rewrite Hnone.
    destruct sheetNames as [|s r]; [done|]. simpl.
    rewrite Hdetect, (Hno s) by (by left). done.
Qed.

(** A workbook whose sheets are named "Sheet1" and "Sheet2": no income
    statement is found, and the first sheet is classified as the balance
    sheet. *)
Lemma findIsBsSheets_picks_two_different_sheets_witness :
  Step2Classify.findIsBsSheets ["Sheet1"; "Sheet2"] = (None, Some "Sheet1").
Proof.
  destruct (findIsBsSheets_picks_two_different_sheets ["Sheet1"; "Sheet2"])
    as (_ & _ & _ & Hno).
  destruct Hno as [His Hbs].
  - intros s [<-|[<-|[]]]; reflexivity.
  - destruct (Step2Classify.findIsBsSheets ["Sheet1"; "Sheet2"]) as [i b].
    simpl in His, Hbs. by rewrite His, Hbs.
Defined.

(** ** Step 1: tab states, extraction and approval *)

Lemma hasType_exclusive entry :
  Step1Upload.hasType SheetType.income_statement entry = true ->
  Step1Upload.hasType SheetType.balance_sheet entry = true -> False.
Proof.
  unfold Step1Upload.hasType. destruct entry as [t|]; [|discriminate].
  by destruct (Step1Upload.sheetType t) as [[]|].
Qed.

(** X14. Step 1 can be approved only with two different sheets extracted:
    when [canApprove] holds, some sheet of the workbook is done as an income
    statement and another one is done as a balance sheet. *)
Theorem canApprove_needs_two_sheets (sheetNames : list string)
  (tabStates : gmap string Step1Upload.TabState) :
  Step1Upload.canApprove sheetNames tabStates = true ->
  exists a b,
    In a sheetNames /\ In b sheetNames /\ a <> b /\
    Step1Upload.isDone (tabStates !! a) = true /\
    Step1Upload.hasType SheetType.income_statement (tabStates !! a) = true /\
    Step1Upload.isDone (tabStates !! b) = true /\
    Step1Upload.hasType SheetType.balance_sheet (tabStates !! b) = true.
Proof.
  unfold Step1Upload.canApprove, Step1Upload.extractedIS, Step1Upload.extractedBS.
  rewrite andb_true_iff, !existsb_exists.
  intros [(a & Ha & Hpa) (b & Hb & Hpb)].
  apply andb_true_iff in Hpa as [Hda Hta]. apply andb_true_iff in Hpb as [Hdb Htb].
  exists a, b. split_and!; try done.
  intros ->. by eapply hasType_exclusive.
Qed.

Lemma handleTabChange_cases sheetNames tab ts :
  Step1Upload.handleTabChange sheetNames tab ts = ts \/
  exists d t,
    ts !! tab = Some d /\ Step1Upload.isDone (Some d) = false /\
    Step1Upload.isOnly (Step1Upload.doneTypes sheetNames ts) (Step1Upload.otherType t) = true /\
    Step1Upload.handleTabChange sheetNames tab ts = Step1Upload.setTabSheetType tab t ts.
Proof.
  unfold Step1Upload.handleTabChange.
  destruct (ts !! tab) as [d|] eqn:Hd; [|by left].
  destruct (Step1Upload.isDone (Some d)) eqn:Hdone; simpl; [by left|].
  destruct (Step1Upload.isOnly _ SheetType.income_statement) eqn:His.
  - right. exists d, SheetType.balance_sheet. by split_and!.
  - destruct (Step1Upload.isOnly _ SheetType.balance_sheet) eqn:Hbs; [|by left].
    right. exists d, SheetType.income_statement. by split_and!.
Qed.

Lemma handleTabChange_done_entries sheetNames tab ts name :
  Step1Upload.isDone (Step1Upload.handleTabChange sheetNames tab ts !! name)
    = Step1Upload.isDone (ts !! name) /\
  (Step1Upload.isDone (ts !! name) = true ->
   Step1Upload.handleTabChange sheetNames tab ts !! name = ts !! name).
Proof.
  destruct (handleTabChange_cases sheetNames tab ts)
    as [->|(d & t & Hd & Hdone & _ & ->)]; [done|].
  unfold Step1Upload.setTabSheetType.
  destruct (decide (tab = name)) as [->|Hne].
  - rewrite lookup_insert_eq, Hd. simpl in *. rewrite Hdone.
    split; [|discriminate].
    unfold Step1Upload.isDone in *. simpl. done.
  - by rewrite lookup_insert_ne.
Qed.

(** X15. Switching tabs never touches an extracted sheet. [handleTabChange]
    leaves every tab other than the destination as it was, changes no
    status, leaves the entry of a tab that is done unchanged, and so does
    not change whether step 1 can be approved; and when it retypes the
    destination, the statement type it gives is the one that no extracted
    sheet has yet. *)
Theorem handleTabChange_keeps_extracted_sheets (sheetNames : list string)
  (tab : string) (tabStates : gmap string Step1Upload.TabState) :
  let after := Step1Upload.handleTabChange sheetNames tab tabStates in
  (forall name, name <> tab -> after !! name = tabStates !! name) /\
  (forall name,
     Step1Upload.status (Step1Upload.spread (after !! name))
       = Step1Upload.status (Step1Upload.spread (tabStates !! name))) /\
  (forall name, Step1Upload.isDone (tabStates !! name) = true ->
                after !! name = tabStates !! name) /\
  (forall names, Step1Upload.canApprove names after = Step1Upload.canApprove names tabStates) /\
  (after <> tabStates ->
   exists t,
     Step1Upload.sheetType (Step1Upload.spread (after !! tab)) = Some t /\
     Step1Upload.hasDoneType (Step1Upload.doneTypes sheetNames tabStates) t = false /\
     Step1Upload.hasDoneType (Step1Upload.doneTypes sheetNames tabStates)
       (Step1Upload.otherType t) = true).
Proof.
  cbv zeta. split_and!.
  - intros name Hne.
    destruct (handleTabChange_cases sheetNames tab tabStates)
      as [->|(d & t & _ & _ & _ & ->)]; [done|].
    unfold Step1Upload.setTabSheetType. by rewrite lookup_insert_ne.
  - intros name.
    destruct (handleTabChange_cases sheetNames tab tabStates)
      as [->|(d & t & Hd & _ & _ & ->)]; [done|].
    unfold Step1Upload.setTabSheetType.
    destruct (decide (tab = name)) as [->|Hne].
    + by rewrite lookup_insert_eq.
    + by rewrite lookup_insert_ne.
  - intros name. apply handleTabChange_done_entries.
  - intros names.
    unfold Step1Upload.canApprove, Step1Upload.extractedIS, Step1Upload.extractedBS.
    f_equal; apply existsb_ext'; intros name;
      destruct (handleTabChange_done_entries sheetNames tab tabStates name) as [Hdone Hsame];
      rewrite Hdone;
      (destruct (Step1Upload.isDone (tabStates !! name)) eqn:Hd; [|done]);
      by rewrite Hsame.
  - intros Hchanged.
    destruct (handleTabChange_cases sheetNames tab tabStates)
      as [Heq|(d & t & Hd & _ & Honly & ->)]; [done|].
    exists t. unfold Step1Upload.setTabSheetType. rewrite lookup_insert_eq. simpl.
    unfold Step1Upload.isOnly in Honly. apply andb_true_iff in Honly as [Hhas Hnot].
    apply negb_true_iff in Hnot. split_and!; [done| |done].
    by destruct t.
Qed.

Lemma canApprove_needs_two_sheets_witness :
  exists a b, a <> b /\
    Step1Upload.isDone (bothExtracted !! a) = true /\
    Step1Upload.isDone (bothExtracted !! b) = true.
Proof.
  destruct (canApprove_needs_two_sheets ["P&L"; "BS"] bothExtracted eq_refl)
    as (a & b & _ & _ & Hne & Hda & _ & Hdb & _).
  by exists a, b.
Defined.

Lemma handleTabChange_keeps_extracted_sheets_witness :
  Step1Upload.canApprove ["P&L"; "BS"]
    (Step1Upload.handleTabChange ["P&L"; "BS"] "BS" bothExtracted) = true.
Proof.
  destruct (handleTabChange_keeps_extracted_sheets ["P&L"; "BS"] "BS" bothExtracted)
    as (_ & _ & _ & Hsame & _).
  rewrite Hsame. reflexivity.
Defined.

Ltac tab_lookups :=
  repeat (first [ rewrite lookup_insert_eq
                | rewrite lookup_insert_ne by congruence
                | rewrite lookup_empty
                | rewrite detectSheetType_step1_always_income_statement ];
          simpl).

Lemma set_plain {A} (obj : gmap string A) key v :
  JsObject.inherited key = false -> JsObject.set obj key v = <[key := v]> obj.
Proof.
  intros H. unfold JsObject.set.
  by rewrite (reachesSetter_other _ _ (inherited_proto _ H)).
Qed.

(** X16. Whatever the two sheets of a workbook are called, as long as they
    are not called like a member of [Object.prototype], extracting the
    first, switching to the second and extracting it makes step 1
    approvable: after the upload both tabs are typed income statement and
    nothing can be approved; once the first is extracted, the switch types
    the second as the balance sheet; once the second is extracted as well,
    both results are in the store and [canApprove] holds. Each extraction is
    started from the render that shows the store as the previous one left
    it. *)
Theorem tab_switch_supplies_the_balance_sheet (a b : string)
  (ra rb : Layer1Result) (s : WizardState) :
  a <> b ->
  JsObject.inherited a = false ->
  JsObject.inherited b = false ->
  let uploaded := Step1Upload.initialTabStates [a; b] in
  let first :=
    Step1Upload.extractionSucceeded (layer1Results s) a ra
      (s, Step1Upload.extractionStarted a uploaded) in
  let switched := Step1Upload.handleTabChange [a; b] b (snd first) in
  let second :=
    Step1Upload.extractionSucceeded (layer1Results (fst first)) b rb
      (fst first, Step1Upload.extractionStarted b switched) in
  Step1Upload.canApprove [a; b] uploaded = false /\
  Step1Upload.canApprove [a; b] (snd first) = false /\
  Step1Upload.hasType SheetType.balance_sheet (switched !! b) = true /\
  Step1Upload.canApprove [a; b] (snd second) = true /\
  layer1Results (fst second) !! a = Some ra /\
  layer1Results (fst second) !! b = Some rb.
Proof.
  intros Hne Ha Hb. cbv zeta.
  assert (b <> a) as Hne' by congruence.
  unfold Step1Upload.canApprove, Step1Upload.extractedIS, Step1Upload.extractedBS,
    Step1Upload.extractionSucceeded, Step1Upload.extractionStarted,
    Step1Upload.handleTabChange, Step1Upload.doneTypes, Step1Upload.setTabSheetType,
    Step1Upload.initialTabStates.
  simpl. rewrite !set_plain by done.
  simpl. tab_lookups. split_and!; done.
Qed.

Lemma tab_switch_supplies_the_balance_sheet_witness :
  Step1Upload.canApprove ["Sheet1"; "Sheet2"]
    (snd (Step1Upload.extractionSucceeded
            (<["Sheet1" := plExtract]> (layer1Results defaultState)) "Sheet2" bsExtract
            (fst (Step1Upload.extractionSucceeded (layer1Results defaultState)
                    "Sheet1" plExtract
                    (defaultState,
                     Step1Upload.extractionStarted "Sheet1"
                       (Step1Upload.initialTabStates ["Sheet1"; "Sheet2"]))),
             Step1Upload.extractionStarted "Sheet2"
               (Step1Upload.handleTabChange ["Sheet1"; "Sheet2"] "Sheet2"
                  (snd (Step1Upload.extractionSucceeded (layer1Results defaultState)
                          "Sheet1" plExtract
                          (defaultState,
                           Step1Upload.extractionStarted "Sheet1"
                             (Step1Upload.initialTabStates ["Sheet1"; "Sheet2"])))))))) = true.
Proof.
  destruct (tab_switch_supplies_the_balance_sheet "Sheet1" "Sheet2"
              plExtract bsExtract defaultState)
    as (_ & _ & _ & Hok & _); [discriminate|reflexivity|reflexivity|].
  exact Hok.
Defined.

(** X17. An extraction writes its result into the [layer1Results] of the
    render it was started from, not into the store as it stands when the
    result arrives. So when two extractions are started from the same
    render and both succeed, the result of the first is gone from the store
    after the second arrives, although both tabs are marked done. *)
Theorem extractions_of_one_render_lose_a_result
  (captured : gmap string Layer1Result) (a b : string) (ra rb : Layer1Result)
  (s : WizardState) (tabStates : gmap string Step1Upload.TabState) :
  a <> b -> captured !! a = None ->
  let first := Step1Upload.extractionSucceeded captured a ra (s, tabStates) in
  let second := Step1Upload.extractionSucceeded captured b rb first in
  layer1Results (fst first) !! a = Some ra /\
  layer1Results (fst second) !! a = None /\
  layer1Results (fst second) !! b = Some rb /\
  Step1Upload.isDone (snd second !! a) = true /\
  Step1Upload.isDone (snd second !! b) = true.
Proof.
  intros Hne Hnone. cbv zeta.
  assert (b <> a) as Hne' by congruence.
  unfold Step1Upload.extractionSucceeded. simpl. tab_lookups.
  split_and!; done.
Qed.

Lemma extractions_of_one_render_lose_a_result_witness :
  layer1Results
    (fst (Step1Upload.extractionSucceeded ∅ "BS" bsExtract
            (Step1Upload.extractionSucceeded ∅ "P&L" plExtract
               (defaultState, Step1Upload.initialTabStates ["P&L"; "BS"]))))
    !! "P&L" = None.
Proof.
  destruct (extractions_of_one_render_lose_a_result ∅ "P&L" "BS" plExtract bsExtract
              defaultState (Step1Upload.initialTabStates ["P&L"; "BS"]))
    as (_ & Hlost & _); [discriminate|reflexivity|].
  exact Hlost.
Defined.

(** ** The side panel: what a save leaves behind *)

(** X18. A save that goes through is found again: with a cell selected, a
    value that parses and a reasoning that is not blank, a click on Save
    leaves a store in which the correction of the selected cell is the one
    entered (the parsed value, the reasoning as typed, the chosen tag, the
    classified value or 0 as the original value, stamped with the time of
    the click), clears the reasoning error, and changes nothing of the store
    but the corrections. *)
Theorem clickSave_saves_what_was_entered (IS : list string)
  (tpl : option TemplateResponse) (now : string) (s : WizardState)
  (form : SidePanel.FormState) (cell : string) :
  selectedCell s = Some cell -> cell <> "" ->
  JsNumber.isNaN (JsNumber.parseFloat (SidePanel.correctedValue form)) = false ->
  JsString.trim (SidePanel.correctionReasoning form) <> "" ->
  let after := Step2Classify.clickSave IS tpl now s form in
  Step2Classify.existingCorrection (corrections (fst after)) (selectedCell (fst after))
    = Some (mkCorrection cell
              (default 0%float
                 (SidePanel.currentValue (Some cell) (Step2Classify.activeLayer2 IS tpl s)))
              (JsNumber.parseFloat (SidePanel.correctedValue form))
              (Some (SidePanel.correctionReasoning form))
              (SidePanel.tag form) now) /\
  SidePanel.reasoningError (snd after) = false /\
  set_corrections (fst after) (corrections s) = s.
Proof.
  intros Hcell Hne Hnan Hreason. cbv zeta.
  unfold Step2Classify.clickSave, SidePanel.handleSave. rewrite Hcell.
  apply truthy_true_iff in Hne. apply truthy_true_iff in Hreason.
  rewrite Hne, Hnan, Hreason. simpl.
  rewrite addCorrection_upsert. simpl. split_and!.
  - unfold Step2Classify.existingCorrection. rewrite Hcell, Hne.
    set (c := stamp _ now).
    change cell with (fieldName c). apply find_upsert.
  - done.
  - apply set_corrections_frame.
Qed.

Lemma clickSave_saves_what_was_entered_witness :
  Step2Classify.existingCorrection
    (corrections (fst (Step2Classify.clickSave isTemplateFields None
                         "2024-03-31T10:00:00.000Z" revenueSelected filledForm)))
    (Some "Gross Revenue") = Some revenueFix.
Proof.
  destruct (clickSave_saves_what_was_entered isTemplateFields None
              "2024-03-31T10:00:00.000Z" revenueSelected filledForm "Gross Revenue")
    as (Hfound & _); [reflexivity|discriminate|reflexivity|discriminate|].
  etransitivity; [exact Hfound|reflexivity].
Defined.

(** X19. What [handleSave] does to the form. A value that does not parse
    makes it return without a word: the form is left as it was, reasoning
    error included, whatever the reasoning. With a field selected and a
    value that parses, a blank reasoning raises the reasoning error and
    changes nothing else of the form. *)
Theorem handleSave_form_outcomes (fieldName : option string)
  (layer2Result : option Layer2Result) (form : SidePanel.FormState) :
  (JsNumber.isNaN (JsNumber.parseFloat (SidePanel.correctedValue form)) = true ->
   SidePanel.handleSave fieldName layer2Result form = (form, None)) /\
  (forall f, fieldName = Some f -> f <> "" ->
     JsNumber.isNaN (JsNumber.parseFloat (SidePanel.correctedValue form)) = false ->
     JsString.trim (SidePanel.correctionReasoning form) = "" ->
     SidePanel.handleSave fieldName layer2Result form
       = (SidePanel.mkForm (SidePanel.correctedValue form)
            (SidePanel.correctionReasoning form) (SidePanel.tag form) true, None)).
Proof.
  unfold SidePanel.handleSave. split.
  - intros Hnan. destruct fieldName as [f|]; [|done].
    destruct (JsString.truthy f); simpl; [|done]. by rewrite Hnan.
  - intros f -> Hne Hnan Hblank. apply truthy_true_iff in Hne.
    rewrite Hne, Hnan, Hblank. done.
Qed.

Lemma handleSave_form_outcomes_witness :
  SidePanel.handleSave (Some "Gross Revenue") (Some isClassified)
    (SidePanel.mkForm "abc" "" one_off_error false)
  = (SidePanel.mkForm "abc" "" one_off_error false, None) /\
  SidePanel.handleSave (Some "Gross Revenue") (Some isClassified) blankReasoningForm
  = (SidePanel.mkForm "250" "   " company_specific true, None).
Proof.
  destruct (handleSave_form_outcomes (Some "Gross Revenue") (Some isClassified)
              (SidePanel.mkForm "abc" "" one_off_error false)) as [Hsilent _].
  destruct (handleSave_form_outcomes (Some "Gross Revenue") (Some isClassified)
              blankReasoningForm) as [_ Hblank].
  split.
  - apply Hsilent. reflexivity.
  - apply (Hblank "Gross Revenue"); [reflexivity|discriminate|reflexivity|reflexivity].
Defined.

(** ** Step 3: the balance check reads corrected totals *)

(** X20. A correction of "Total Assets" or of "Total Liabilities and
    Equity" enters the balance check: when the field is not listed among the
    income-statement fields and is corrected (each field at most once), the
    total the check reads is the corrected value, whatever Layer 2 had
    classified. *)
Theorem balance_check_reads_corrected_totals (IS : list string)
  (tpl : option TemplateResponse) (l2 : gmap string Layer2Result)
  (cs : list Correction) (c : Correction) :
  List.NoDup (map fieldName cs) -> In c cs ->
  ~ In (fieldName c) (flat_map fields (Step3Finalize.isSections IS tpl)) ->
  (fieldName c = "Total Assets" ->
   Step3Finalize.totalAssets IS tpl l2 cs = correctedValue c) /\
  (fieldName c = "Total Liabilities and Equity" ->
   Step3Finalize.totalLE IS tpl l2 cs = correctedValue c).
Proof.
  intros Hnd Hin Hnot.
  assert (fieldName c <> "__proto__" ->
          Step3Finalize.totalOrZero IS tpl l2 cs (fieldName c) = correctedValue c) as H.
  { intros Hkey. rewrite totalOrZero_resolved by done. unfold resolvedTotal.
    rewrite lastCorrection_unique by done.
    rewrite bool_decide_false; [done|]. by rewrite isFieldNames_In. }
  unfold Step3Finalize.totalAssets, Step3Finalize.totalLE.
  split; intros Hname; rewrite <- Hname; apply H; by rewrite Hname.
Qed.

(** On the balance sheet that lacked "Total Liabilities and Equity", the
    correction supplies it and the check balances. *)
Lemma balance_check_reads_corrected_totals_witness :
  Step3Finalize.totalLE isTemplateFields None (layer2Results reviewed) [totalLEFix]
    = oneCent /\
  Step3Finalize.isBalanced isTemplateFields None (layer2Results reviewed) [totalLEFix]
    = true.
Proof.
  split; [|vm_compute; reflexivity].
  apply (balance_check_reads_corrected_totals isTemplateFields None
           (layer2Results reviewed) [totalLEFix] totalLEFix).
  - repeat (constructor; [simpl; intuition discriminate|]). constructor.
  - simpl. tauto.
  - simpl. intros [H|[H|[H|[]]]]; discriminate.
  - reflexivity.
Defined.

(** ** Step 1: the company dropdown *)

Lemma includes_empty s : JsString.includes s "" = true.
Proof. by destruct s. Qed.

Lemma toLowerCase_length s : String.length (JsString.toLowerCase s) = String.length s.
Proof. induction s as [|c s IH]; simpl; [done|by rewrite IH]. Qed.

Lemma startsWith_length s p :
  JsString.startsWith s p = true -> String.length p <= String.length s.
Proof.
  revert s. induction p as [|a p IH]; intros s H; simpl in *; [lia|].
  destruct s as [|b s]; [discriminate|].
  apply andb_true_iff in H as [_ H]. apply IH in H. simpl. lia.
Qed.

Lemma includes_length s p :
  JsString.includes s p = true -> String.length p <= String.length s.
Proof.
  induction s as [|c s IH]; simpl; intros H.
  - rewrite orb_false_r in H. by apply startsWith_length in H.
  - apply orb_true_iff in H as [H|H].
    + by apply startsWith_length in H.
    + apply IH in H. lia.
Qed.

(** X21. The company dropdown never dead-ends on a search without
    surrounding blanks: with an empty search every company is listed; and
    for a search that is not blank and has no leading or trailing white
    space, either the "+ Add" button is offered or a company of that name
    (case aside) is in the list shown. *)
Theorem company_dropdown_offers_add_or_lists_match
  (companies : list Step1Upload.Company.t) (comboSearch : string) :
  Step1Upload.filteredCompanies companies "" = companies /\
  (comboSearch <> "" -> JsString.trim comboSearch = comboSearch ->
   Step1Upload.offersAdd companies comboSearch = true \/
   exists c, In c (Step1Upload.filteredCompanies companies comboSearch) /\
             JsString.toLowerCase (Step1Upload.Company.name c)
             = JsString.toLowerCase comboSearch).
Proof.
  split.
  - unfold Step1Upload.filteredCompanies. simpl.
    induction companies as [|c r IH]; simpl; [done|].
    by rewrite includes_empty, IH.
  - intros Hne Htrim. unfold Step1Upload.offersAdd. rewrite Htrim.
    rewrite (proj2 (truthy_true_iff comboSearch) Hne). simpl.
    destruct (existsb _ companies) eqn:Hex; [right|by left].
    apply existsb_exists in Hex as (c & Hin & Heq). apply String.eqb_eq in Heq.
    exists c. split; [|done].
    unfold Step1Upload.filteredCompanies. apply filter_In. split; [done|].
    rewrite Heq. apply includes_refl.
Qed.

Lemma company_dropdown_offers_add_or_lists_match_witness :
  Step1Upload.offersAdd [acme] "ACME" = false /\
  exists c, In c (Step1Upload.filteredCompanies [acme] "ACME") /\
            JsString.toLowerCase (Step1Upload.Company.name c) = "acme".
Proof.
  split; [reflexivity|].
  destruct (company_dropdown_offers_add_or_lists_match [acme] "ACME") as [_ H].
  destruct H as [Hadd|(c & Hin & Hname)]; [discriminate|reflexivity|discriminate|].
  exists c. split; [exact Hin|]. etransitivity; [exact Hname|reflexivity].
Defined.

(** X22. With a leading blank the dropdown does dead-end. The "+ Add"
    test trims the search and the list filter does not: for a search made of
    a blank followed by the name of an existing company (a name without
    surrounding white space, no company having a longer name), no "+ Add"
    button is offered, no company is listed, and the "No companies yet" hint
    is not shown either. *)
Theorem company_dropdown_dead_ends_on_leading_blank
  (companies : list Step1Upload.Company.t) (existing : Step1Upload.Company.t) :
  In existing companies ->
  Step1Upload.Company.name existing <> "" ->
  JsString.trim (Step1Upload.Company.name existing) = Step1Upload.Company.name existing ->
  (forall c, In c companies ->
     String.length (Step1Upload.Company.name c)
     <= String.length (Step1Upload.Company.name existing)) ->
  let comboSearch := String " " (Step1Upload.Company.name existing) in
  Step1Upload.offersAdd companies comboSearch = false /\
  Step1Upload.filteredCompanies companies comboSearch = [] /\
  Step1Upload.showsNoCompaniesHint companies comboSearch = false.
Proof.
  intros Hin Hne Htrim Hlen. cbv zeta.
  set (n := Step1Upload.Company.name existing) in *.
  assert (JsString.trim (String " " n) = n) as Htrim'.
  { unfold JsString.trim in *. simpl. exact Htrim. }
  assert (Step1Upload.filteredCompanies companies (String " " n) = []) as Hnone.
  { unfold Step1Upload.filteredCompanies.
    clear Hin. induction companies as [|c r IH]; simpl; [done|].
    destruct (JsString.includes _ _) eqn:Hinc.
    - apply includes_length in Hinc. rewrite toLowerCase_length in Hinc.
      change (JsString.lowerChar " ") with " "%char in Hinc. simpl in Hinc.
      rewrite toLowerCase_length in Hinc.
      specialize (Hlen c (or_introl eq_refl)). fold n in Hlen. lia.
    - apply IH. intros c' Hc'. apply Hlen. by right. }
  split_and!.
  - unfold Step1Upload.offersAdd. rewrite Htrim'.
    rewrite (proj2 (truthy_true_iff n) Hne). simpl.
    apply negb_false_iff. apply existsb_exists.
    exists existing. split; [done|apply String.eqb_refl].
  - exact Hnone.
  - unfold Step1Upload.showsNoCompaniesHint. rewrite Htrim'.
    rewrite (proj2 (truthy_true_iff n) Hne). apply andb_false_r.
Qed.

Lemma company_dropdown_dead_ends_on_leading_blank_witness :
  Step1Upload.offersAdd [acme] " Acme" = false /\
  Step1Upload.filteredCompanies [acme] " Acme" = [].
Proof.
  destruct (company_dropdown_dead_ends_on_leading_blank [acme] acme)
    as (Hadd & Hlist & _).
  - simpl. tauto.
  - discriminate.
  - reflexivity.
  - intros c [<-|[]]. simpl. lia.
  - split; [exact Hadd|exact Hlist].
Defined.
